(** * devicenetwork/dnc.go: the device port configuration handlers

    A shallow embedding of the four pubsub handlers of package
    [devicenetwork] ([HandleDNCModify], [HandleDNCDelete],
    [HandleDPCModify], [HandleDPCDelete]) and of [DoDNSUpdate], together
    with the properties of the priority arbitration, of the change-driven
    side effects and of the address-count notification.

    The handlers mutate one [DeviceNetworkContext] and call into other
    packages.  Here a handler is a computation in a small state-and-trace
    monad: it threads the context and appends every call that leaves the
    package to a trace of [Effect]s, so that "no DHCP call", "one
    publication" and the like are statements about the trace.  Log lines
    are not part of the trace. *)

From Stdlib Require Import ZArith List Bool Lia.
From stdpp Require Import base decidable option numbers strings list gmap.

Local Open Scope Z_scope.

(** ** Types of the packages [types] and [pubsub]

    [types.DeviceNetworkConfig], [types.DevicePortConfig] and
    [types.DeviceNetworkStatus] are declared in package [types]; the handlers
    only copy them, compare them with [reflect.DeepEqual] and build their zero
    values ([types.DevicePortConfig{}]).  The class collects exactly that:
    the carrier, a decidable equality standing for [reflect.DeepEqual] on two
    values of the same struct type, and the zero value. *)
Class Types := {
  types_DeviceNetworkConfig : Type;
  types_DevicePortConfig : Type;
  types_DeviceNetworkStatus : Type;
  pubsub_Subscription : Type;
  DevicePortConfig_DeepEqual :: EqDecision types_DevicePortConfig;
  DeviceNetworkStatus_DeepEqual :: EqDecision types_DeviceNetworkStatus;
  zero_DeviceNetworkConfig : types_DeviceNetworkConfig;
  zero_DevicePortConfig : types_DevicePortConfig;
  zero_DeviceNetworkStatus : types_DeviceNetworkStatus
}.

(** A [pubsub.Publication] is a keyed collection of published items:
    [Publish key item] stores the item under the key, [Get key] reads it. *)
Abbreviation Publication A := (gmap string A).

Section Handlers.
Context `{Ty : Types}.

(** The struct [DeviceNetworkContext].  The three fields holding a pointer to
    a [types] struct are the cells the handlers read and write through
    ([*ctx.DevicePortConfig = portConfig]); the cell is the field here.
    [PubDevicePortConfig] is used without a nil test by the handlers that
    publish through it, [PubDeviceNetworkStatus] is tested against nil before
    use and is therefore an option. *)
Record DeviceNetworkContext := mkDeviceNetworkContext {
  UsableAddressCount : Z;
  ManufacturerModel : string;
  DeviceNetworkConfig : types_DeviceNetworkConfig;
  DevicePortConfig : types_DevicePortConfig;
  DevicePortConfigPrio : Z;
  DeviceNetworkStatus : types_DeviceNetworkStatus;
  SubDeviceNetworkConfig : option pubsub_Subscription;
  SubDevicePortConfigA : option pubsub_Subscription;
  SubDevicePortConfigO : option pubsub_Subscription;
  SubDevicePortConfigS : option pubsub_Subscription;
  PubDevicePortConfig : Publication types_DevicePortConfig;
  PubDeviceNetworkStatus : option (Publication types_DeviceNetworkStatus);
  Changed : bool;
  SubGlobalConfig : option pubsub_Subscription
}.

(** Field assignments. *)
Definition set_UsableAddressCount (v : Z) (c : DeviceNetworkContext) :=
  mkDeviceNetworkContext v (ManufacturerModel c) (DeviceNetworkConfig c)
    (DevicePortConfig c) (DevicePortConfigPrio c) (DeviceNetworkStatus c)
    (SubDeviceNetworkConfig c) (SubDevicePortConfigA c)
    (SubDevicePortConfigO c) (SubDevicePortConfigS c)
    (PubDevicePortConfig c) (PubDeviceNetworkStatus c) (Changed c)
    (SubGlobalConfig c).

Definition set_DeviceNetworkConfig (v : types_DeviceNetworkConfig)
    (c : DeviceNetworkContext) :=
  mkDeviceNetworkContext (UsableAddressCount c) (ManufacturerModel c) v
    (DevicePortConfig c) (DevicePortConfigPrio c) (DeviceNetworkStatus c)
    (SubDeviceNetworkConfig c) (SubDevicePortConfigA c)
    (SubDevicePortConfigO c) (SubDevicePortConfigS c)
    (PubDevicePortConfig c) (PubDeviceNetworkStatus c) (Changed c)
    (SubGlobalConfig c).

Definition set_DevicePortConfig (v : types_DevicePortConfig)
    (c : DeviceNetworkContext) :=
  mkDeviceNetworkContext (UsableAddressCount c) (ManufacturerModel c)
    (DeviceNetworkConfig c) v (DevicePortConfigPrio c)
    (DeviceNetworkStatus c)
    (SubDeviceNetworkConfig c) (SubDevicePortConfigA c)
    (SubDevicePortConfigO c) (SubDevicePortConfigS c)
    (PubDevicePortConfig c) (PubDeviceNetworkStatus c) (Changed c)
    (SubGlobalConfig c).

Definition set_DevicePortConfigPrio (v : Z) (c : DeviceNetworkContext) :=
  mkDeviceNetworkContext (UsableAddressCount c) (ManufacturerModel c)
    (DeviceNetworkConfig c) (DevicePortConfig c) v (DeviceNetworkStatus c)
    (SubDeviceNetworkConfig c) (SubDevicePortConfigA c)
    (SubDevicePortConfigO c) (SubDevicePortConfigS c)
    (PubDevicePortConfig c) (PubDeviceNetworkStatus c) (Changed c)
    (SubGlobalConfig c).

Definition set_DeviceNetworkStatus (v : types_DeviceNetworkStatus)
    (c : DeviceNetworkContext) :=
  mkDeviceNetworkContext (UsableAddressCount c) (ManufacturerModel c)
    (DeviceNetworkConfig c) (DevicePortConfig c) (DevicePortConfigPrio c) v
    (SubDeviceNetworkConfig c) (SubDevicePortConfigA c)
    (SubDevicePortConfigO c) (SubDevicePortConfigS c)
    (PubDevicePortConfig c) (PubDeviceNetworkStatus c) (Changed c)
    (SubGlobalConfig c).

Definition set_PubDevicePortConfig (v : Publication types_DevicePortConfig)
    (c : DeviceNetworkContext) :=
  mkDeviceNetworkContext (UsableAddressCount c) (ManufacturerModel c)
    (DeviceNetworkConfig c) (DevicePortConfig c) (DevicePortConfigPrio c)
    (DeviceNetworkStatus c)
    (SubDeviceNetworkConfig c) (SubDevicePortConfigA c)
    (SubDevicePortConfigO c) (SubDevicePortConfigS c)
    v (PubDeviceNetworkStatus c) (Changed c) (SubGlobalConfig c).

Definition set_PubDeviceNetworkStatus
    (v : option (Publication types_DeviceNetworkStatus))
    (c : DeviceNetworkContext) :=
  mkDeviceNetworkContext (UsableAddressCount c) (ManufacturerModel c)
    (DeviceNetworkConfig c) (DevicePortConfig c) (DevicePortConfigPrio c)
    (DeviceNetworkStatus c)
    (SubDeviceNetworkConfig c) (SubDevicePortConfigA c)
    (SubDevicePortConfigO c) (SubDevicePortConfigS c)
    (PubDevicePortConfig c) v (Changed c) (SubGlobalConfig c).

Definition set_Changed (v : bool) (c : DeviceNetworkContext) :=
  mkDeviceNetworkContext (UsableAddressCount c) (ManufacturerModel c)
    (DeviceNetworkConfig c) (DevicePortConfig c) (DevicePortConfigPrio c)
    (DeviceNetworkStatus c)
    (SubDeviceNetworkConfig c) (SubDevicePortConfigA c)
    (SubDevicePortConfigO c) (SubDevicePortConfigS c)
    (PubDevicePortConfig c) (PubDeviceNetworkStatus c) v (SubGlobalConfig c).

(** ** Calls that leave the package

    What the functions of other packages return during one handler call.
    [MakeDeviceNetworkStatus] reads the interfaces of the machine, so two
    handler calls may see two different functions; each delivered event
    carries its own [Collaborators].  The second component of the result of
    [MakeDeviceNetworkStatus] is Go's [error]: [None] for [nil]. *)
Record Collaborators := {
  MakeDevicePortConfig : types_DeviceNetworkConfig -> types_DevicePortConfig;
  MakeDeviceNetworkStatus :
    types_DevicePortConfig -> types_DeviceNetworkStatus ->
    types_DeviceNetworkStatus * option string;
  CountLocalAddrAnyNoLinkLocal : types_DeviceNetworkStatus -> Z
}.

(** One entry of the trace per call out of the package, with its
    arguments. *)
Inductive Effect :=
| CallMakeDevicePortConfig (config : types_DeviceNetworkConfig)
| CallUpdateDhcpClient (newConfig oldConfig : types_DevicePortConfig)
| CallMakeDeviceNetworkStatus (config : types_DevicePortConfig)
    (oldStatus : types_DeviceNetworkStatus)
| CallCountLocalAddrAnyNoLinkLocal (status : types_DeviceNetworkStatus)
| CallUpdateLedManagerConfig (ledCounter : Z)
| PublishDevicePortConfig (key : string) (item : types_DevicePortConfig)
| PublishDeviceNetworkStatus (key : string)
    (item : types_DeviceNetworkStatus).

(** ** The monad: context in, result, context and trace out *)
Definition M (A : Type) : Type :=
  DeviceNetworkContext -> A * DeviceNetworkContext * list Effect.

Definition ret {A} (a : A) : M A := fun ctx => (a, ctx, []).

Definition bind {A B} (m : M A) (k : A -> M B) : M B :=
  fun ctx =>
    let '(a, ctx1, t1) := m ctx in
    let '(b, ctx2, t2) := k a ctx1 in
    (b, ctx2, t1 ++ t2).

Definition get : M DeviceNetworkContext := fun ctx => (ctx, ctx, []).

Definition modify (f : DeviceNetworkContext -> DeviceNetworkContext)
  : M unit := fun ctx => (tt, f ctx, []).

Definition emit (e : Effect) : M unit := fun ctx => (tt, ctx, [e]).

Definition ctx_of {A} (r : A * DeviceNetworkContext * list Effect) :=
  snd (fst r).

Definition trace_of {A} (r : A * DeviceNetworkContext * list Effect) :=
  snd r.

(** [x <- m ;; k] runs [m], names its result and goes on with [k]. *)
Notation "x <- m ;; k" := (bind m (fun x => k))
  (at level 100, m at next level, right associativity, only parsing).
Notation "m ;; k" := (bind m (fun _ => k))
  (at level 100, right associativity, only parsing).

(** ** The handlers *)

(** The [switch key] of [HandleDPCModify] and [HandleDPCDelete]: zedagent
    with any key is 1, the override file is 2, the per-platform
    configuration is 3. *)
Definition priority_of_key (key : string) : Z :=
  if decide (key = "global") then 3
  else if decide (key = "override") then 2
  else 1.

(** [DoDNSUpdate] (dnc.go, 178-198).  [Publish] is handed the pointer
    [ctx.DeviceNetworkStatus]; the handlers write that cell only right
    before they call [DoDNSUpdate], so the item stored under "global" is the
    content of the cell at the time of the call. *)
Definition DoDNSUpdate (env : Collaborators) : M unit :=
  ctx <- get ;;
  emit (CallCountLocalAddrAnyNoLinkLocal (DeviceNetworkStatus ctx)) ;;
  let newAddrCount :=
    CountLocalAddrAnyNoLinkLocal env (DeviceNetworkStatus ctx) in
  (if (newAddrCount =? 0) && negb (UsableAddressCount ctx =? 0) then
     emit (CallUpdateLedManagerConfig 1)
   else if negb (newAddrCount =? 0) && (UsableAddressCount ctx =? 0) then
     emit (CallUpdateLedManagerConfig 2)
   else ret tt) ;;
  modify (set_UsableAddressCount newAddrCount) ;;
  (match PubDeviceNetworkStatus ctx with
   | Some pub =>
       emit (PublishDeviceNetworkStatus "global" (DeviceNetworkStatus ctx)) ;;
       modify (set_PubDeviceNetworkStatus
                 (Some (<["global" := DeviceNetworkStatus ctx]> pub)))
   | None => ret tt
   end) ;;
  modify (set_Changed true).

(** The test that makes [HandleDPCModify] return early (dnc.go, 110). *)
Definition dpc_modify_ignored (ctx : DeviceNetworkContext) (key : string)
  : bool :=
  let curPriority := DevicePortConfigPrio ctx in
  let priority := priority_of_key key in
  negb (curPriority =? 0) && (priority >? curPriority).

(** [HandleDPCModify] (dnc.go, 92-132).  [portConfig] is the result of
    [cast.CastDevicePortConfig configArg]. *)
Definition HandleDPCModify (env : Collaborators) (key : string)
    (portConfig : types_DevicePortConfig) : M unit :=
  ctx <- get ;;
  let priority := priority_of_key key in
  if dpc_modify_ignored ctx key then ret tt
  else
    modify (set_DevicePortConfigPrio priority) ;;
    (if decide (DevicePortConfig ctx = portConfig) then ret tt
     else
       emit (CallUpdateDhcpClient portConfig (DevicePortConfig ctx)) ;;
       modify (set_DevicePortConfig portConfig)) ;;
    emit (CallMakeDeviceNetworkStatus portConfig (DeviceNetworkStatus ctx)) ;;
    let dnStatus :=
      fst (MakeDeviceNetworkStatus env portConfig (DeviceNetworkStatus ctx)) in
    if decide (DeviceNetworkStatus ctx = dnStatus) then ret tt
    else
      modify (set_DeviceNetworkStatus dnStatus) ;;
      DoDNSUpdate env.

(** The test that makes [HandleDPCDelete] return early (dnc.go, 152). *)
Definition dpc_delete_ignored (ctx : DeviceNetworkContext) (key : string)
  : bool :=
  let curPriority := DevicePortConfigPrio ctx in
  let priority := priority_of_key key in
  negb (curPriority =? priority).

(** [HandleDPCDelete] (dnc.go, 134-176).  The payload argument is not
    read. *)
Definition HandleDPCDelete (env : Collaborators) (key : string) : M unit :=
  ctx <- get ;;
  if dpc_delete_ignored ctx key then ret tt
  else
    modify (set_DevicePortConfigPrio 0) ;;
    let portConfig := zero_DevicePortConfig in
    (if decide (DevicePortConfig ctx = portConfig) then ret tt
     else
       emit (CallUpdateDhcpClient portConfig (DevicePortConfig ctx)) ;;
       modify (set_DevicePortConfig portConfig)) ;;
    let dnStatus := zero_DeviceNetworkStatus in
    if decide (DeviceNetworkStatus ctx = dnStatus) then ret tt
    else
      modify (set_DeviceNetworkStatus dnStatus) ;;
      DoDNSUpdate env.

(** The old value read by both legacy handlers:
    [c, _ := ctx.PubDevicePortConfig.Get("global")], the zero value when
    nothing is published under the key. *)
Definition published_global (ctx : DeviceNetworkContext)
  : types_DevicePortConfig :=
  match PubDevicePortConfig ctx !! "global" with
  | Some c => c
  | None => zero_DevicePortConfig
  end.

(** [HandleDNCModify] (dnc.go, 31-57).  [config] is the result of
    [cast.CastDeviceNetworkConfig configArg]. *)
Definition HandleDNCModify (env : Collaborators) (key : string)
    (config : types_DeviceNetworkConfig) : M unit :=
  ctx <- get ;;
  if decide (key <> ManufacturerModel ctx) then ret tt
  else
    let oldConfig := published_global ctx in
    modify (set_DeviceNetworkConfig config) ;;
    emit (CallMakeDevicePortConfig config) ;;
    let portConfig := MakeDevicePortConfig env config in
    if decide (oldConfig = portConfig) then ret tt
    else
      emit (PublishDevicePortConfig "global" portConfig) ;;
      modify (set_PubDevicePortConfig
                (<["global" := portConfig]> (PubDevicePortConfig ctx))).

(** [HandleDNCDelete] (dnc.go, 59-84). *)
Definition HandleDNCDelete (env : Collaborators) (key : string) : M unit :=
  ctx <- get ;;
  if decide (key <> ManufacturerModel ctx) then ret tt
  else
    let oldConfig := published_global ctx in
    modify (set_DeviceNetworkConfig zero_DeviceNetworkConfig) ;;
    emit (CallMakeDevicePortConfig zero_DeviceNetworkConfig) ;;
    let portConfig := MakeDevicePortConfig env zero_DeviceNetworkConfig in
    if decide (oldConfig = portConfig) then ret tt
    else
      emit (PublishDevicePortConfig "global" portConfig) ;;
      modify (set_PubDevicePortConfig
                (<["global" := portConfig]> (PubDevicePortConfig ctx))).

(** ** Sequences of delivered events

    The agent's dispatch loop delivers one event at a time to the handler
    registered for it; [exec] runs the handlers over a list of events and
    records, for every event, the context before and after and the trace of
    the call. *)
Inductive Event :=
| Modify (env : Collaborators) (key : string)
    (portConfig : types_DevicePortConfig)
| Delete (env : Collaborators) (key : string).

Definition deliver (ev : Event) : M unit :=
  match ev with
  | Modify env key portConfig => HandleDPCModify env key portConfig
  | Delete env key => HandleDPCDelete env key
  end.

(** An event is accepted when its handler does not take the early
    return. *)
Definition accepted (ctx : DeviceNetworkContext) (ev : Event) : bool :=
  match ev with
  | Modify _ key _ => negb (dpc_modify_ignored ctx key)
  | Delete _ key => negb (dpc_delete_ignored ctx key)
  end.

(** A Modify as the subscription delivers it: what the collaborators
    answer during the call, the key and the payload. *)
Definition modify_event
    (m : Collaborators * string * types_DevicePortConfig) : Event :=
  Modify (fst (fst m)) (snd (fst m)) (snd m).

Definition is_modify (ev : Event) : bool :=
  match ev with Modify _ _ _ => true | Delete _ _ => false end.

Record Step := mkStep {
  before : DeviceNetworkContext;
  event : Event;
  after : DeviceNetworkContext;
  effects : list Effect
}.

Fixpoint exec (ctx : DeviceNetworkContext) (evs : list Event) : list Step :=
  match evs with
  | [] => []
  | ev :: evs' =>
      let r := deliver ev ctx in
      mkStep ctx ev (ctx_of r) (trace_of r) :: exec (ctx_of r) evs'
  end.

(** The context after the whole list. *)
Fixpoint final (ctx : DeviceNetworkContext) (evs : list Event)
  : DeviceNetworkContext :=
  match evs with
  | [] => ctx
  | ev :: evs' => final (ctx_of (deliver ev ctx)) evs'
  end.

Definition step_accepted (st : Step) : bool :=
  accepted (before st) (event st).

(** The most recently accepted step of a run, [acc] when there is none. *)
Fixpoint last_accepted (acc : option Step) (steps : list Step)
  : option Step :=
  match steps with
  | [] => acc
  | st :: rest =>
      last_accepted (if step_accepted st then Some st else acc) rest
  end.

(** Whether some Modify of the run was accepted. *)
Definition modify_ever_accepted (steps : list Step) : bool :=
  existsb (fun st => is_modify (event st) && step_accepted st) steps.

(** Whether a Modify was accepted and no Delete was accepted after it:
    an accepted Modify raises the flag, an accepted Delete lowers it, an
    ignored event leaves it. *)
Fixpoint modify_in_force (flag : bool) (steps : list Step) : bool :=
  match steps with
  | [] => flag
  | st :: rest =>
      modify_in_force
        (if step_accepted st then is_modify (event st) else flag) rest
  end.

(** What the arbitration promises for one Modify step: it is accepted
    exactly when no priority is active or its priority is at most the active
    one; accepted, it leaves its payload and its priority active; ignored,
    it leaves the context as it was and calls nothing. *)
Definition modify_step_ok (st : Step) : Prop :=
  match event st with
  | Modify _ key portConfig =>
      let cur := DevicePortConfigPrio (before st) in
      let p := priority_of_key key in
      (step_accepted st = true <-> cur = 0 \/ p <= cur) /\
      (if step_accepted st
       then DevicePortConfig (after st) = portConfig /\
            DevicePortConfigPrio (after st) = p
       else after st = before st /\ effects st = [])
  | Delete _ _ => True
  end.

(** [ctx] holds the payload and the priority of the Modify step [acc], or
    is [ctx0] when there is no such step. *)
Definition holds_last_accepted (ctx0 : DeviceNetworkContext)
    (acc : option Step) (ctx : DeviceNetworkContext) : Prop :=
  match acc with
  | Some st =>
      exists env key portConfig,
        event st = Modify env key portConfig /\
        DevicePortConfig ctx = portConfig /\
        DevicePortConfigPrio ctx = priority_of_key key
  | None => ctx = ctx0
  end.

(** The calls of one kind in a trace. *)
Definition led_signals (t : list Effect) : list Z :=
  omap (fun e => match e with
                 | CallUpdateLedManagerConfig n => Some n
                 | _ => None
                 end) t.

Definition status_publications (t : list Effect)
  : list (string * types_DeviceNetworkStatus) :=
  omap (fun e => match e with
                 | PublishDeviceNetworkStatus k s => Some (k, s)
                 | _ => None
                 end) t.

Definition port_config_publications (t : list Effect)
  : list (string * types_DevicePortConfig) :=
  omap (fun e => match e with
                 | PublishDevicePortConfig k c => Some (k, c)
                 | _ => None
                 end) t.

Definition dhcp_calls (t : list Effect)
  : list (types_DevicePortConfig * types_DevicePortConfig) :=
  omap (fun e => match e with
                 | CallUpdateDhcpClient n o => Some (n, o)
                 | _ => None
                 end) t.

Definition projector_calls (t : list Effect)
  : list (types_DevicePortConfig * types_DeviceNetworkStatus) :=
  omap (fun e => match e with
                 | CallMakeDeviceNetworkStatus c s => Some (c, s)
                 | _ => None
                 end) t.

(** ** Runs as a whole *)

Definition event_env (ev : Event) : Collaborators :=
  match ev with Modify env _ _ => env | Delete env _ => env end.

Definition event_key (ev : Event) : string :=
  match ev with Modify _ key _ => key | Delete _ key => key end.

(** The signals of a run, in the order they are sent. *)
Definition run_led_signals (steps : list Step) : list Z :=
  concat (map (fun st => led_signals (effects st)) steps).

(** A list of signals that starts with 2 when [no_address] holds, with 1
    otherwise, and goes on with the other one each time. *)
Fixpoint alternating (no_address : bool) (signals : list Z) : Prop :=
  match signals with
  | [] => True
  | s :: rest =>
      s = (if no_address then 2 else 1) /\
      alternating (negb no_address) rest
  end.

(** The cached count is the count of the active status. *)
Definition count_cache_current
    (count : types_DeviceNetworkStatus -> Z) (ctx : DeviceNetworkContext)
  : Prop :=
  UsableAddressCount ctx = count (DeviceNetworkStatus ctx).

(** What is published under "global", if anything, is the active status. *)
Definition status_publication_current (ctx : DeviceNetworkContext) : Prop :=
  match PubDeviceNetworkStatus ctx with
  | Some pub =>
      match pub !! "global" with
      | Some s => s = DeviceNetworkStatus ctx
      | None => True
      end
  | None => True
  end.

(** The state of the port configuration arbitration is the same in [ctx]
    and [ctx'], and the trace [t] has no DHCP call, no projection, no signal
    and no status publication. *)
Definition arbitration_untouched (ctx ctx' : DeviceNetworkContext)
    (t : list Effect) : Prop :=
  DevicePortConfig ctx' = DevicePortConfig ctx /\
  DevicePortConfigPrio ctx' = DevicePortConfigPrio ctx /\
  DeviceNetworkStatus ctx' = DeviceNetworkStatus ctx /\
  UsableAddressCount ctx' = UsableAddressCount ctx /\
  Changed ctx' = Changed ctx /\
  PubDeviceNetworkStatus ctx' = PubDeviceNetworkStatus ctx /\
  ManufacturerModel ctx' = ManufacturerModel ctx /\
  dhcp_calls t = [] /\
  projector_calls t = [] /\
  led_signals t = [] /\
  status_publications t = [].

End Handlers.

(** ** A small instance

    Port configurations as lists of interface names, statuses as lists of
    interfaces with their addresses; used to run the handlers on concrete
    contexts. *)
Module Sample.

Local Open Scope string_scope.

#[export] Instance sample_types : Types := {|
  types_DeviceNetworkConfig := list string;
  types_DevicePortConfig := list string;
  types_DeviceNetworkStatus := list (string * list string);
  pubsub_Subscription := unit;
  zero_DeviceNetworkConfig := [];
  zero_DevicePortConfig := [];
  zero_DeviceNetworkStatus := []
|}.

(** Every address of every port counts. *)
Definition count_addrs (st : list (string * list string)) : Z :=
  Z.of_nat (length (concat (map snd st))).

(** All interfaces of the configuration exist and carry the addresses
    [addrs] gives them. *)
Definition probing (addrs : string -> list string) : Collaborators := {|
  MakeDevicePortConfig := fun config => config;
  MakeDeviceNetworkStatus := fun config _ =>
    (map (fun ifname => (ifname, addrs ifname)) config, None);
  CountLocalAddrAnyNoLinkLocal := count_addrs
|}.

(** An interface of the configuration is missing: the status lists the
    ports found so far and comes with an error. *)
Definition failing (found : list (string * list string))
  : Collaborators := {|
  MakeDevicePortConfig := fun config => config;
  MakeDeviceNetworkStatus := fun _ _ =>
    (found, Some "Port in config/global does not exist");
  CountLocalAddrAnyNoLinkLocal := count_addrs
|}.

(** The loopback interface is reported whatever the configuration. *)
Definition with_loopback : Collaborators := {|
  MakeDevicePortConfig := fun config => config;
  MakeDeviceNetworkStatus := fun config _ =>
    (("lo", ["127.0.0.1"])
       :: map (fun ifname => (ifname, [])) config, None);
  CountLocalAddrAnyNoLinkLocal := count_addrs
|}.

Definition no_addrs : string -> list string := fun _ => [].

Definition one_addr : string -> list string :=
  fun ifname =>
    if decide (ifname = "eth0") then ["192.168.1.10"] else [].

(** A context as an agent sets it up: zero values, priority 0, both
    publications present and empty. *)
Definition fresh : DeviceNetworkContext := {|
  UsableAddressCount := 0;
  ManufacturerModel := "Supermicro.SYS-E100-9APP";
  DeviceNetworkConfig := [];
  DevicePortConfig := [];
  DevicePortConfigPrio := 0;
  DeviceNetworkStatus := [];
  SubDeviceNetworkConfig := None;
  SubDevicePortConfigA := None;
  SubDevicePortConfigO := None;
  SubDevicePortConfigS := None;
  PubDevicePortConfig := ∅;
  PubDeviceNetworkStatus := Some ∅;
  Changed := false;
  SubGlobalConfig := None
|}.

(** Zedagent's configuration for eth0 is active and eth0 has an address. *)
Definition zedagent_active : DeviceNetworkContext :=
  final fresh [Modify (probing one_addr) "zedagent" ["eth0"]].

(** The per-platform configuration is active and lists no port. *)
Definition global_empty_active : DeviceNetworkContext :=
  final fresh [Modify (probing one_addr) "global" []].

(** The per-platform configuration for eth0 is active and eth0 has an
    address. *)
Definition global_active : DeviceNetworkContext :=
  final fresh [Modify (probing one_addr) "global" ["eth0"]].

(** The registered model has delivered its raw configuration once. *)
Definition model_delivered : DeviceNetworkContext :=
  ctx_of (HandleDNCModify (probing no_addrs)
            "Supermicro.SYS-E100-9APP" ["eth0"] fresh).

(** A context of an agent that does not publish the status. *)
Definition not_publishing : DeviceNetworkContext :=
  set_PubDeviceNetworkStatus None fresh.

(** A run with a take-over, a loss of the address, an ignored event and
    the owner's Delete. *)
Definition mixed_run : list Event :=
  [Modify (probing one_addr) "global" ["eth0"];
   Modify (probing no_addrs) "zedagent" ["eth0"];
   Modify (probing one_addr) "override" ["eth1"];
   Delete (probing one_addr) "zedagent"].

End Sample.

(** * Properties *)

Section Properties.
Context `{Ty : Types}.

(** The handlers are unfolded on request only. *)
#[local] Arguments DoDNSUpdate : simpl never.
#[local] Arguments HandleDPCModify : simpl never.
#[local] Arguments HandleDPCDelete : simpl never.
#[local] Arguments HandleDNCModify : simpl never.
#[local] Arguments HandleDNCDelete : simpl never.

(** Unfolds a handler down to pairs of context and trace. *)
Ltac run_handler :=
  unfold HandleDPCModify, HandleDPCDelete, HandleDNCModify, HandleDNCDelete,
    DoDNSUpdate, bind, get, modify, emit, ret, ctx_of, trace_of;
  cbn.

(** Splits on the tests a handler makes, outermost first. *)
Ltac split_tests :=
  repeat match goal with
         | |- context [match PubDeviceNetworkStatus ?c with _ => _ end] =>
             destruct (PubDeviceNetworkStatus c) eqn:?; cbn
         | |- context [if ?b then _ else _] => destruct b eqn:?; cbn
         end.

Lemma priority_of_key_range (key : string) :
  priority_of_key key = 1 \/ priority_of_key key = 2 \/
  priority_of_key key = 3.
Proof.
  unfold priority_of_key. repeat case_decide; auto.
Qed.

Lemma dpc_modify_ignored_spec (ctx : DeviceNetworkContext) (key : string) :
  dpc_modify_ignored ctx key = false <->
  DevicePortConfigPrio ctx = 0 \/
  priority_of_key key <= DevicePortConfigPrio ctx.
Proof.
  unfold dpc_modify_ignored. cbn.
  rewrite andb_false_iff, negb_false_iff, Z.eqb_eq, Z.gtb_ltb, Z.ltb_ge.
  reflexivity.
Qed.

Lemma dpc_delete_ignored_spec (ctx : DeviceNetworkContext) (key : string) :
  dpc_delete_ignored ctx key = false <->
  priority_of_key key = DevicePortConfigPrio ctx.
Proof.
  unfold dpc_delete_ignored. cbn.
  rewrite negb_false_iff, Z.eqb_eq. split; congruence.
Qed.

(** What [DoDNSUpdate] leaves alone. *)
Lemma DoDNSUpdate_frame (env : Collaborators) (ctx : DeviceNetworkContext) :
  let ctx' := ctx_of (DoDNSUpdate env ctx) in
  DevicePortConfig ctx' = DevicePortConfig ctx /\
  DevicePortConfigPrio ctx' = DevicePortConfigPrio ctx /\
  DeviceNetworkStatus ctx' = DeviceNetworkStatus ctx /\
  DeviceNetworkConfig ctx' = DeviceNetworkConfig ctx /\
  PubDevicePortConfig ctx' = PubDevicePortConfig ctx /\
  ManufacturerModel ctx' = ManufacturerModel ctx.
Proof.
  run_handler. split_tests; auto 10.
Qed.

(** The trace of [DoDNSUpdate]: the count, at most one signal, at most one
    publication, in this order. *)
Lemma DoDNSUpdate_trace (env : Collaborators) (ctx : DeviceNetworkContext) :
  let count := CountLocalAddrAnyNoLinkLocal env (DeviceNetworkStatus ctx) in
  trace_of (DoDNSUpdate env ctx) =
    CallCountLocalAddrAnyNoLinkLocal (DeviceNetworkStatus ctx)
    :: (if (count =? 0) && negb (UsableAddressCount ctx =? 0)
        then [CallUpdateLedManagerConfig 1]
        else if negb (count =? 0) && (UsableAddressCount ctx =? 0)
        then [CallUpdateLedManagerConfig 2]
        else [])
    ++ match PubDeviceNetworkStatus ctx with
       | Some _ =>
           [PublishDeviceNetworkStatus "global" (DeviceNetworkStatus ctx)]
       | None => []
       end.
Proof.
  run_handler. split_tests; reflexivity.
Qed.

(** An ignored Modify is the identity. *)
Lemma HandleDPCModify_ignored (env : Collaborators) (key : string)
    (portConfig : types_DevicePortConfig) (ctx : DeviceNetworkContext) :
  dpc_modify_ignored ctx key = true ->
  HandleDPCModify env key portConfig ctx = (tt, ctx, []).
Proof.
  intros Hig. run_handler. rewrite Hig. reflexivity.
Qed.

(** An accepted Modify, step by step: the priority, the configuration when
    it differs, the projection, and [DoDNSUpdate] when the status differs. *)
Lemma HandleDPCModify_accepted (env : Collaborators) (key : string)
    (portConfig : types_DevicePortConfig) (ctx : DeviceNetworkContext) :
  dpc_modify_ignored ctx key = false ->
  let ctx1 := set_DevicePortConfigPrio (priority_of_key key) ctx in
  let ctx2 :=
    if decide (DevicePortConfig ctx = portConfig) then ctx1
    else set_DevicePortConfig portConfig ctx1 in
  let t2 :=
    if decide (DevicePortConfig ctx = portConfig) then []
    else [CallUpdateDhcpClient portConfig (DevicePortConfig ctx)] in
  let dnStatus :=
    fst (MakeDeviceNetworkStatus env portConfig (DeviceNetworkStatus ctx)) in
  let t3 :=
    t2 ++ [CallMakeDeviceNetworkStatus portConfig (DeviceNetworkStatus ctx)] in
  HandleDPCModify env key portConfig ctx =
    if decide (DeviceNetworkStatus ctx = dnStatus) then (tt, ctx2, t3)
    else
      let r := DoDNSUpdate env (set_DeviceNetworkStatus dnStatus ctx2) in
      (tt, ctx_of r, t3 ++ trace_of r).
Proof.
  intros Hacc. unfold HandleDPCModify.
  remember (DoDNSUpdate env) as notify.
  unfold bind, get, modify, emit, ret, ctx_of, trace_of.
  cbn. rewrite Hacc.
  repeat case_decide; cbn;
    try (destruct (notify _) as [[[] c] t]; cbn);
    rewrite ?app_nil_r; reflexivity.
Qed.

(** An ignored Delete is the identity. *)
Lemma HandleDPCDelete_ignored (env : Collaborators) (key : string)
    (ctx : DeviceNetworkContext) :
  dpc_delete_ignored ctx key = true ->
  HandleDPCDelete env key ctx = (tt, ctx, []).
Proof.
  intros Hig. run_handler. rewrite Hig. reflexivity.
Qed.

(** An accepted Delete, step by step: priority 0, the zero configuration
    when the active one differs, the zero status and [DoDNSUpdate] when the
    active status differs. *)
Lemma HandleDPCDelete_accepted (env : Collaborators) (key : string)
    (ctx : DeviceNetworkContext) :
  dpc_delete_ignored ctx key = false ->
  let ctx1 := set_DevicePortConfigPrio 0 ctx in
  let ctx2 :=
    if decide (DevicePortConfig ctx = zero_DevicePortConfig) then ctx1
    else set_DevicePortConfig zero_DevicePortConfig ctx1 in
  let t2 :=
    if decide (DevicePortConfig ctx = zero_DevicePortConfig) then []
    else [CallUpdateDhcpClient zero_DevicePortConfig (DevicePortConfig ctx)] in
  HandleDPCDelete env key ctx =
    if decide (DeviceNetworkStatus ctx = zero_DeviceNetworkStatus)
    then (tt, ctx2, t2)
    else
      let r :=
        DoDNSUpdate env (set_DeviceNetworkStatus zero_DeviceNetworkStatus ctx2)
      in (tt, ctx_of r, t2 ++ trace_of r).
Proof.
  intros Hacc. unfold HandleDPCDelete.
  remember (DoDNSUpdate env) as notify.
  unfold bind, get, modify, emit, ret, ctx_of, trace_of.
  cbn. rewrite Hacc.
  repeat case_decide; cbn;
    try (destruct (notify _) as [[[] c] t]; cbn);
    rewrite ?app_nil_r; reflexivity.
Qed.

(** The projections of a trace distribute over concatenation. *)
Lemma projector_calls_app (t1 t2 : list Effect) :
  projector_calls (t1 ++ t2) = projector_calls t1 ++ projector_calls t2.
Proof. apply omap_app. Qed.

Lemma dhcp_calls_app (t1 t2 : list Effect) :
  dhcp_calls (t1 ++ t2) = dhcp_calls t1 ++ dhcp_calls t2.
Proof. apply omap_app. Qed.

Lemma status_publications_app (t1 t2 : list Effect) :
  status_publications (t1 ++ t2) =
  status_publications t1 ++ status_publications t2.
Proof. apply omap_app. Qed.

Lemma led_signals_app (t1 t2 : list Effect) :
  led_signals (t1 ++ t2) = led_signals t1 ++ led_signals t2.
Proof. apply omap_app. Qed.

(** [DoDNSUpdate] calls neither the DHCP client nor the projector. *)
Lemma DoDNSUpdate_no_dhcp_no_projector (env : Collaborators)
    (ctx : DeviceNetworkContext) :
  dhcp_calls (trace_of (DoDNSUpdate env ctx)) = [] /\
  projector_calls (trace_of (DoDNSUpdate env ctx)) = [].
Proof.
  rewrite DoDNSUpdate_trace.
  split; split_tests; reflexivity.
Qed.

(** The publications of [DoDNSUpdate]: one when the handle is there. *)
Lemma DoDNSUpdate_status_publications (env : Collaborators)
    (ctx : DeviceNetworkContext) :
  status_publications (trace_of (DoDNSUpdate env ctx)) =
    match PubDeviceNetworkStatus ctx with
    | Some _ => [("global"%string, DeviceNetworkStatus ctx)]
    | None => []
    end.
Proof.
  rewrite DoDNSUpdate_trace.
  split_tests; reflexivity.
Qed.

(** The signals of [DoDNSUpdate], as the code tests them. *)
Lemma DoDNSUpdate_led_signals_eq (env : Collaborators)
    (ctx : DeviceNetworkContext) :
  let count := CountLocalAddrAnyNoLinkLocal env (DeviceNetworkStatus ctx) in
  led_signals (trace_of (DoDNSUpdate env ctx)) =
    if (count =? 0) && negb (UsableAddressCount ctx =? 0) then [1]
    else if negb (count =? 0) && (UsableAddressCount ctx =? 0) then [2]
    else [].
Proof.
  rewrite DoDNSUpdate_trace.
  split_tests; reflexivity.
Qed.

(** ** The claims *)

(** C6. Address-count notification of [DoDNSUpdate]: with [count] the
    number of usable addresses of the active status and [previous] the
    cached count, exactly one signal 1 is sent iff [count = 0] and
    [previous <> 0], exactly one signal 2 iff [count <> 0] and
    [previous = 0], and no signal in every other case (a change from one
    non-zero count to another included); the cached count becomes [count]
    in all cases. *)
Theorem DoDNSUpdate_signal_transitions (env : Collaborators)
    (ctx : DeviceNetworkContext) :
  let count := CountLocalAddrAnyNoLinkLocal env (DeviceNetworkStatus ctx) in
  let previous := UsableAddressCount ctx in
  let r := DoDNSUpdate env ctx in
  (led_signals (trace_of r) = [1] <-> count = 0 /\ previous <> 0) /\
  (led_signals (trace_of r) = [2] <-> count <> 0 /\ previous = 0) /\
  (led_signals (trace_of r) = [] <->
     ~ (count = 0 /\ previous <> 0) /\ ~ (count <> 0 /\ previous = 0)) /\
  UsableAddressCount (ctx_of r) = count.
Proof.
  intros count previous r. subst r.
  rewrite DoDNSUpdate_led_signals_eq. fold count. fold previous.
  split; [|split; [|split]].
  - destruct (Z.eqb_spec count 0), (Z.eqb_spec previous 0); cbn;
      split; intros; try discriminate; try lia; auto.
  - destruct (Z.eqb_spec count 0), (Z.eqb_spec previous 0); cbn;
      split; intros; try discriminate; try lia; auto.
  - destruct (Z.eqb_spec count 0), (Z.eqb_spec previous 0); cbn;
      split; intros; try discriminate; try lia; auto.
  - run_handler. split_tests; reflexivity.
Qed.

(** C7. A Delete whose priority differs from the active priority returns
    at once: the context is the same in every field (active configuration,
    active priority, active status, cached address count, [Changed] flag,
    publications) and the trace is empty, so nothing is called, signalled or
    published. *)
Theorem HandleDPCDelete_non_owning_frame (env : Collaborators)
    (key : string) (ctx : DeviceNetworkContext) :
  priority_of_key key <> DevicePortConfigPrio ctx ->
  HandleDPCDelete env key ctx = (tt, ctx, []).
Proof.
  intros Hne. apply HandleDPCDelete_ignored.
  destruct (dpc_delete_ignored ctx key) eqn:Hig; [reflexivity|].
  apply dpc_delete_ignored_spec in Hig. contradiction.
Qed.

(** C10. An owning Delete (its priority is the active one) on a context
    whose active configuration and active status are already the zero
    values only resets the active priority to 0: the trace is empty (no
    DHCP call, no signal, no publication) and every other field, the
    [Changed] flag and the cached address count among them, keeps its
    value. *)
Theorem HandleDPCDelete_owning_on_empty (env : Collaborators)
    (key : string) (ctx : DeviceNetworkContext) :
  priority_of_key key = DevicePortConfigPrio ctx ->
  DevicePortConfig ctx = zero_DevicePortConfig ->
  DeviceNetworkStatus ctx = zero_DeviceNetworkStatus ->
  let r := HandleDPCDelete env key ctx in
  r = (tt, set_DevicePortConfigPrio 0 ctx, []) /\
  DevicePortConfigPrio (ctx_of r) = 0 /\
  DevicePortConfig (ctx_of r) = DevicePortConfig ctx /\
  DeviceNetworkStatus (ctx_of r) = DeviceNetworkStatus ctx /\
  UsableAddressCount (ctx_of r) = UsableAddressCount ctx /\
  Changed (ctx_of r) = Changed ctx /\
  PubDeviceNetworkStatus (ctx_of r) = PubDeviceNetworkStatus ctx /\
  PubDevicePortConfig (ctx_of r) = PubDevicePortConfig ctx /\
  DeviceNetworkConfig (ctx_of r) = DeviceNetworkConfig ctx.
Proof.
  intros Hown Hcfg Hst r. subst r.
  rewrite HandleDPCDelete_accepted
    by (apply dpc_delete_ignored_spec; exact Hown).
  cbn. rewrite !decide_True by assumption.
  cbn. auto 10.
Qed.

(** C9. Legacy path: a [HandleDNCModify] whose key is the registered
    manufacturer/model key always stores the incoming payload in
    [ctx.DeviceNetworkConfig]; when the port configuration built from it
    equals the one published under "global" (the zero value when none is),
    nothing is published and the store is the only change. *)
Theorem HandleDNCModify_overwrites_raw_config (env : Collaborators)
    (key : string) (config : types_DeviceNetworkConfig)
    (ctx : DeviceNetworkContext) :
  key = ManufacturerModel ctx ->
  let r := HandleDNCModify env key config ctx in
  DeviceNetworkConfig (ctx_of r) = config /\
  (published_global ctx = MakeDevicePortConfig env config ->
     r = (tt, set_DeviceNetworkConfig config ctx,
          [CallMakeDevicePortConfig config]) /\
     port_config_publications (trace_of r) = [] /\
     PubDevicePortConfig (ctx_of r) = PubDevicePortConfig ctx).
Proof.
  intros Hkey r. subst r. run_handler.
  rewrite decide_False by (intros Hne; apply Hne; exact Hkey).
  cbn. split.
  - case_decide; reflexivity.
  - intros Hsame. rewrite decide_True by exact Hsame. cbn. auto.
Qed.

(** The configuration and the priority after an accepted Modify. *)
Lemma HandleDPCModify_accepted_fields (env : Collaborators) (key : string)
    (portConfig : types_DevicePortConfig) (ctx : DeviceNetworkContext) :
  dpc_modify_ignored ctx key = false ->
  let ctx' := ctx_of (HandleDPCModify env key portConfig ctx) in
  DevicePortConfig ctx' = portConfig /\
  DevicePortConfigPrio ctx' = priority_of_key key.
Proof.
  intros Hacc. cbn zeta.
  rewrite (HandleDPCModify_accepted env key portConfig ctx Hacc).
  cbn zeta. case_decide as Hst.
  - unfold ctx_of. cbn. case_decide; cbn; auto.
  - unfold ctx_of at 1 3. cbn [fst snd].
    destruct (DoDNSUpdate_frame env
      (set_DeviceNetworkStatus
         (fst (MakeDeviceNetworkStatus env portConfig
                 (DeviceNetworkStatus ctx)))
         (if decide (DevicePortConfig ctx = portConfig)
          then set_DevicePortConfigPrio (priority_of_key key) ctx
          else set_DevicePortConfig portConfig
                 (set_DevicePortConfigPrio (priority_of_key key) ctx))))
      as (Hc & Hp & _).
    rewrite Hc, Hp. case_decide; cbn; auto.
Qed.

(** The priority after an accepted Delete. *)
Lemma HandleDPCDelete_accepted_prio (env : Collaborators) (key : string)
    (ctx : DeviceNetworkContext) :
  dpc_delete_ignored ctx key = false ->
  DevicePortConfigPrio (ctx_of (HandleDPCDelete env key ctx)) = 0.
Proof.
  intros Hacc.
  rewrite (HandleDPCDelete_accepted env key ctx Hacc).
  cbn zeta. case_decide as Hst.
  - unfold ctx_of. cbn. case_decide; cbn; auto.
  - unfold ctx_of at 1. cbn [fst snd].
    destruct (DoDNSUpdate_frame env
      (set_DeviceNetworkStatus zero_DeviceNetworkStatus
         (if decide (DevicePortConfig ctx = zero_DevicePortConfig)
          then set_DevicePortConfigPrio 0 ctx
          else set_DevicePortConfig zero_DevicePortConfig
                 (set_DevicePortConfigPrio 0 ctx))))
      as (_ & Hp & _).
    rewrite Hp. case_decide; cbn; auto.
Qed.

(** An event that is not accepted changes nothing and calls nothing. *)
Lemma deliver_ignored (ev : Event) (ctx : DeviceNetworkContext) :
  accepted ctx ev = false -> deliver ev ctx = (tt, ctx, []).
Proof.
  destruct ev as [env key portConfig | env key]; cbn; intros Hig;
    apply negb_false_iff in Hig.
  - apply HandleDPCModify_ignored, Hig.
  - apply HandleDPCDelete_ignored, Hig.
Qed.

(** The active priority after an accepted event. *)
Lemma deliver_accepted_prio (ev : Event) (ctx : DeviceNetworkContext) :
  accepted ctx ev = true ->
  DevicePortConfigPrio (ctx_of (deliver ev ctx)) =
    match ev with
    | Modify _ key _ => priority_of_key key
    | Delete _ _ => 0
    end.
Proof.
  destruct ev as [env key portConfig | env key]; cbn; intros Hacc;
    apply negb_true_iff in Hacc.
  - apply HandleDPCModify_accepted_fields, Hacc.
  - apply HandleDPCDelete_accepted_prio, Hacc.
Qed.

Lemma modify_steps_ok
    (ms : list (Collaborators * string * types_DevicePortConfig)) :
  forall ctx, Forall modify_step_ok (exec ctx (map modify_event ms)).
Proof.
  induction ms as [|[[env key] portConfig] ms IH]; intros ctx; cbn.
  - constructor.
  - constructor; [|apply IH].
    unfold modify_step_ok, step_accepted. cbn. split.
    + rewrite negb_true_iff. apply dpc_modify_ignored_spec.
    + destruct (dpc_modify_ignored ctx key) eqn:Hig; cbn.
      * rewrite (HandleDPCModify_ignored env key portConfig ctx Hig).
        split; reflexivity.
      * apply (HandleDPCModify_accepted_fields env key portConfig ctx Hig).
Qed.

Lemma modify_run_holds_last_accepted (ctx0 : DeviceNetworkContext)
    (ms : list (Collaborators * string * types_DevicePortConfig)) :
  forall ctx acc,
    holds_last_accepted ctx0 acc ctx ->
    holds_last_accepted ctx0
      (last_accepted acc (exec ctx (map modify_event ms)))
      (final ctx (map modify_event ms)).
Proof.
  induction ms as [|[[env key] portConfig] ms IH]; intros ctx acc Hinv; cbn.
  - exact Hinv.
  - apply IH. unfold step_accepted. cbn.
    destruct (dpc_modify_ignored ctx key) eqn:Hig; cbn.
    + rewrite (HandleDPCModify_ignored env key portConfig ctx Hig).
      exact Hinv.
    + exists env, key, portConfig. split; [reflexivity|].
      apply (HandleDPCModify_accepted_fields env key portConfig ctx Hig).
Qed.

(** The priorities the [switch key] gives: 3 to "global" and to no other
    key, 2 to "override" and to no other key, 1 to every other key. *)
Lemma priority_of_key_mapping :
  (forall key : string, priority_of_key key = 3 <-> key = "global"%string) /\
  (forall key : string,
     priority_of_key key = 2 <-> key = "override"%string) /\
  (forall key : string,
     priority_of_key key = 1 <->
     key <> "global"%string /\ key <> "override"%string).
Proof.
  unfold priority_of_key.
  split; [|split]; intros key; repeat case_decide; subst;
    (split; [intros Hprio | intros Hkey]);
    try reflexivity; try discriminate; try assumption;
    try (split; assumption); try contradiction;
    try (destruct Hkey as [Hg Ho]; solve [contradiction | discriminate]).
Qed.

(** C1. Priority arbitration of [HandleDPCModify] over any sequence of
    Modify events.  The priority of an event is 3 exactly for the key
    "global", 2 exactly for the key "override" and 1 for every other key.
    Every event of the run is accepted iff the active priority is 0 or the
    priority of the event is at most the active one; an accepted event leaves
    its payload as active configuration and its priority as active priority;
    an ignored event changes nothing and calls nothing.  Hence at the end of
    the run the active configuration and priority are those of the most
    recently accepted event, and the context is the initial one when no event
    was accepted. *)
Theorem HandleDPCModify_precedence_arbitration
    (ctx0 : DeviceNetworkContext)
    (ms : list (Collaborators * string * types_DevicePortConfig)) :
  let steps := exec ctx0 (map modify_event ms) in
  (forall key : string, priority_of_key key = 3 <-> key = "global"%string) /\
  (forall key : string,
     priority_of_key key = 2 <-> key = "override"%string) /\
  (forall key : string,
     priority_of_key key = 1 <->
     key <> "global"%string /\ key <> "override"%string) /\
  Forall modify_step_ok steps /\
  holds_last_accepted ctx0 (last_accepted None steps)
    (final ctx0 (map modify_event ms)).
Proof.
  destruct priority_of_key_mapping as (Hglobal & Hoverride & Hother).
  split; [exact Hglobal|]. split; [exact Hoverride|].
  split; [exact Hother|]. split.
  - apply modify_steps_ok.
  - apply modify_run_holds_last_accepted. reflexivity.
Qed.

(** The active priority is 0 exactly when the flag of [modify_in_force] is
    down; every step keeps that. *)
Lemma prio_zero_iff_no_modify_in_force (evs : list Event) :
  forall ctx flag,
    (DevicePortConfigPrio ctx = 0 <-> flag = false) ->
    (DevicePortConfigPrio (final ctx evs) = 0 <->
     modify_in_force flag (exec ctx evs) = false).
Proof.
  induction evs as [|ev evs IH]; intros ctx flag Hinv; cbn.
  - exact Hinv.
  - apply IH. unfold step_accepted. cbn.
    destruct (accepted ctx ev) eqn:Hacc.
    + rewrite (deliver_accepted_prio ev ctx Hacc).
      destruct ev as [env key portConfig | env key]; cbn.
      * destruct (priority_of_key_range key) as [H|[H|H]]; rewrite H;
          split; intros; discriminate.
      * split; reflexivity.
    + rewrite (deliver_ignored ev ctx Hacc). exact Hinv.
Qed.

(** C4, amended. From a context whose active priority is 0, after any
    sequence of [HandleDPCModify] and [HandleDPCDelete] events the active
    priority is 0 iff no Modify has been accepted since the most recent
    accepted Delete (since the start when no Delete was accepted). *)
Theorem DevicePortConfigPrio_zero_iff (ctx0 : DeviceNetworkContext)
    (evs : list Event) :
  DevicePortConfigPrio ctx0 = 0 ->
  (DevicePortConfigPrio (final ctx0 evs) = 0 <->
   modify_in_force false (exec ctx0 evs) = false).
Proof.
  intros H0. apply prio_zero_iff_no_modify_in_force.
  split; auto.
Qed.

(** What [DoDNSUpdate] writes. *)
Lemma DoDNSUpdate_writes (env : Collaborators) (ctx : DeviceNetworkContext) :
  let ctx' := ctx_of (DoDNSUpdate env ctx) in
  UsableAddressCount ctx' =
    CountLocalAddrAnyNoLinkLocal env (DeviceNetworkStatus ctx) /\
  Changed ctx' = true /\
  PubDeviceNetworkStatus ctx' =
    match PubDeviceNetworkStatus ctx with
    | Some pub => Some (<["global"%string := DeviceNetworkStatus ctx]> pub)
    | None => None
    end.
Proof.
  run_handler. split_tests; auto.
Qed.

(** Rewrites the projections of a concatenated trace and those of the
    trace of [DoDNSUpdate]. *)
Ltac trace_facts :=
  rewrite ?projector_calls_app, ?dhcp_calls_app, ?status_publications_app,
    ?led_signals_app;
  rewrite ?(fun env ctx => proj1 (DoDNSUpdate_no_dhcp_no_projector env ctx)),
    ?(fun env ctx => proj2 (DoDNSUpdate_no_dhcp_no_projector env ctx)),
    ?DoDNSUpdate_status_publications.

(** C2, amended. An accepted Modify whose payload is structurally equal to
    the active configuration makes no DHCP call and leaves the configuration
    as it is, sets the active priority to the priority of the event, and
    calls the status projector exactly once, with the payload and the
    active status.  When the projected status equals the active one nothing
    else happens: the projector call is the whole trace and the priority is
    the only field written.  When it differs, it replaces the active status
    and [DoDNSUpdate] runs on the result: the count is taken and cached, the
    signal of a crossing is sent, the new status is published if the
    publication is there, and [Changed] is set. *)
Theorem HandleDPCModify_same_config (env : Collaborators) (key : string)
    (ctx : DeviceNetworkContext) :
  DevicePortConfigPrio ctx = 0 \/
    priority_of_key key <= DevicePortConfigPrio ctx ->
  let portConfig := DevicePortConfig ctx in
  let r := HandleDPCModify env key portConfig ctx in
  dhcp_calls (trace_of r) = [] /\
  projector_calls (trace_of r) = [(portConfig, DeviceNetworkStatus ctx)] /\
  DevicePortConfigPrio (ctx_of r) = priority_of_key key /\
  DevicePortConfig (ctx_of r) = portConfig /\
  (fst (MakeDeviceNetworkStatus env portConfig (DeviceNetworkStatus ctx))
     = DeviceNetworkStatus ctx ->
   r = (tt, set_DevicePortConfigPrio (priority_of_key key) ctx,
        [CallMakeDeviceNetworkStatus portConfig (DeviceNetworkStatus ctx)])) /\
  (fst (MakeDeviceNetworkStatus env portConfig (DeviceNetworkStatus ctx))
     <> DeviceNetworkStatus ctx ->
   let dnStatus :=
     fst (MakeDeviceNetworkStatus env portConfig (DeviceNetworkStatus ctx)) in
   let count := CountLocalAddrAnyNoLinkLocal env dnStatus in
   let r' := DoDNSUpdate env
     (set_DeviceNetworkStatus dnStatus
        (set_DevicePortConfigPrio (priority_of_key key) ctx)) in
   r = (tt, ctx_of r',
        [CallMakeDeviceNetworkStatus portConfig (DeviceNetworkStatus ctx)]
        ++ trace_of r') /\
   DeviceNetworkStatus (ctx_of r) = dnStatus /\
   UsableAddressCount (ctx_of r) = count /\
   Changed (ctx_of r) = true /\
   PubDeviceNetworkStatus (ctx_of r) =
     match PubDeviceNetworkStatus ctx with
     | Some pub => Some (<["global"%string := dnStatus]> pub)
     | None => None
     end /\
   led_signals (trace_of r) =
     (if (count =? 0) && negb (UsableAddressCount ctx =? 0) then [1]
      else if negb (count =? 0) && (UsableAddressCount ctx =? 0) then [2]
      else []) /\
   status_publications (trace_of r) =
     match PubDeviceNetworkStatus ctx with
     | Some _ => [("global"%string, dnStatus)]
     | None => []
     end).
Proof.
  intros Hacc portConfig r. apply dpc_modify_ignored_spec in Hacc.
  destruct (HandleDPCModify_accepted_fields env key portConfig ctx Hacc)
    as [Hc Hp].
  assert (Hr : r =
    if decide (DeviceNetworkStatus ctx =
               fst (MakeDeviceNetworkStatus env portConfig
                      (DeviceNetworkStatus ctx)))
    then (tt, set_DevicePortConfigPrio (priority_of_key key) ctx,
          [CallMakeDeviceNetworkStatus portConfig (DeviceNetworkStatus ctx)])
    else
      let r' := DoDNSUpdate env
        (set_DeviceNetworkStatus
           (fst (MakeDeviceNetworkStatus env portConfig
                   (DeviceNetworkStatus ctx)))
           (set_DevicePortConfigPrio (priority_of_key key) ctx)) in
      (tt, ctx_of r',
       [CallMakeDeviceNetworkStatus portConfig (DeviceNetworkStatus ctx)]
       ++ trace_of r')).
  { subst r.
    rewrite (HandleDPCModify_accepted env key portConfig ctx Hacc).
    cbn zeta. subst portConfig.
    rewrite !(decide_True (P := DevicePortConfig ctx = DevicePortConfig ctx))
      by reflexivity.
    reflexivity. }
  split; [|split; [|split; [exact Hp|split; [exact Hc|split]]]].
  - rewrite Hr. case_decide; [reflexivity|].
    cbn [trace_of snd]. trace_facts. reflexivity.
  - rewrite Hr. case_decide; [reflexivity|].
    cbn [trace_of snd]. trace_facts. reflexivity.
  - intros Hsame. rewrite Hr.
    rewrite decide_True by (symmetry; exact Hsame). reflexivity.
  - intros Hdiff dnStatus count r'.
    assert (Hr' : r =
      (tt, ctx_of r',
       [CallMakeDeviceNetworkStatus portConfig (DeviceNetworkStatus ctx)]
       ++ trace_of r')).
    { rewrite Hr.
      rewrite decide_False by (intros Heq; apply Hdiff; symmetry; exact Heq).
      reflexivity. }
    split; [exact Hr'|].
    rewrite Hr'. cbn [ctx_of trace_of fst snd].
    destruct (DoDNSUpdate_frame env
                (set_DeviceNetworkStatus dnStatus
                   (set_DevicePortConfigPrio (priority_of_key key) ctx)))
      as (_ & _ & Hs & _).
    destruct (DoDNSUpdate_writes env
                (set_DeviceNetworkStatus dnStatus
                   (set_DevicePortConfigPrio (priority_of_key key) ctx)))
      as (Hu & Hch & Hpub).
    pose proof (DoDNSUpdate_led_signals_eq env
                  (set_DeviceNetworkStatus dnStatus
                     (set_DevicePortConfigPrio (priority_of_key key) ctx)))
      as Hled.
    pose proof (DoDNSUpdate_status_publications env
                  (set_DeviceNetworkStatus dnStatus
                     (set_DevicePortConfigPrio (priority_of_key key) ctx)))
      as Hsp.
    cbn in Hs, Hu, Hch, Hpub, Hled, Hsp.
    split; [exact Hs|]. split; [exact Hu|]. split; [exact Hch|].
    split; [exact Hpub|]. split; [exact Hled|exact Hsp].
Qed.

(** C5, amended. An accepted Modify calls the status projector exactly
    once and does not look at the error it returns: the active status after
    the call is the status value the projector returned.  When that value
    equals the previous status there is no signal and no publication and the
    cached count, the [Changed] flag and the publication are untouched; when
    it differs, with or without an error, it replaces the previous status
    and [DoDNSUpdate] runs on it: the context and the rest of the trace are
    those of [DoDNSUpdate], so the count is taken and cached, the signal of
    a crossing is sent, the status is published and stored if the
    publication is there, and [Changed] is set. *)
Theorem HandleDPCModify_projection_error_discarded (env : Collaborators)
    (key : string) (portConfig : types_DevicePortConfig)
    (ctx : DeviceNetworkContext) :
  DevicePortConfigPrio ctx = 0 \/
    priority_of_key key <= DevicePortConfigPrio ctx ->
  let dnStatus :=
    fst (MakeDeviceNetworkStatus env portConfig (DeviceNetworkStatus ctx)) in
  let r := HandleDPCModify env key portConfig ctx in
  projector_calls (trace_of r) = [(portConfig, DeviceNetworkStatus ctx)] /\
  DeviceNetworkStatus (ctx_of r) = dnStatus /\
  (dnStatus = DeviceNetworkStatus ctx ->
     led_signals (trace_of r) = [] /\
     status_publications (trace_of r) = [] /\
     UsableAddressCount (ctx_of r) = UsableAddressCount ctx /\
     Changed (ctx_of r) = Changed ctx /\
     PubDeviceNetworkStatus (ctx_of r) = PubDeviceNetworkStatus ctx) /\
  (dnStatus <> DeviceNetworkStatus ctx ->
     status_publications (trace_of r) =
       match PubDeviceNetworkStatus ctx with
       | Some _ => [("global"%string, dnStatus)]
       | None => []
       end /\
     UsableAddressCount (ctx_of r)
       = CountLocalAddrAnyNoLinkLocal env dnStatus /\
     Changed (ctx_of r) = true /\
     let count := CountLocalAddrAnyNoLinkLocal env dnStatus in
     let ctx2 :=
       if decide (DevicePortConfig ctx = portConfig)
       then set_DevicePortConfigPrio (priority_of_key key) ctx
       else set_DevicePortConfig portConfig
              (set_DevicePortConfigPrio (priority_of_key key) ctx) in
     let r' := DoDNSUpdate env (set_DeviceNetworkStatus dnStatus ctx2) in
     r = (tt, ctx_of r',
          ((if decide (DevicePortConfig ctx = portConfig) then []
            else [CallUpdateDhcpClient portConfig (DevicePortConfig ctx)])
           ++ [CallMakeDeviceNetworkStatus portConfig
                 (DeviceNetworkStatus ctx)])
          ++ trace_of r') /\
     led_signals (trace_of r) =
       (if (count =? 0) && negb (UsableAddressCount ctx =? 0) then [1]
        else if negb (count =? 0) && (UsableAddressCount ctx =? 0) then [2]
        else []) /\
     PubDeviceNetworkStatus (ctx_of r) =
       match PubDeviceNetworkStatus ctx with
       | Some pub => Some (<["global"%string := dnStatus]> pub)
       | None => None
       end).
Proof.
  intros Hacc dnStatus r. apply dpc_modify_ignored_spec in Hacc.
  subst r.
  rewrite (HandleDPCModify_accepted env key portConfig ctx Hacc).
  cbn zeta. fold dnStatus.
  set (ctx2 := if decide (DevicePortConfig ctx = portConfig)
               then set_DevicePortConfigPrio (priority_of_key key) ctx
               else set_DevicePortConfig portConfig
                      (set_DevicePortConfigPrio (priority_of_key key) ctx)).
  assert (Hctx2 : DeviceNetworkStatus ctx2 = DeviceNetworkStatus ctx /\
                  UsableAddressCount ctx2 = UsableAddressCount ctx /\
                  Changed ctx2 = Changed ctx /\
                  PubDeviceNetworkStatus ctx2 = PubDeviceNetworkStatus ctx).
  { subst ctx2. case_decide; cbn; auto. }
  destruct Hctx2 as (Hs2 & Hu2 & Hch2 & Hpub2).
  case_decide as Hst.
  - cbn [trace_of ctx_of fst snd]. trace_facts.
    split; [case_decide; reflexivity|].
    split; [rewrite Hs2; exact Hst|].
    split.
    + intros _. repeat split; try assumption; case_decide; reflexivity.
    + intros Hne. exfalso. apply Hne. symmetry. exact Hst.
  - cbn [trace_of ctx_of fst snd]. trace_facts.
    destruct (DoDNSUpdate_frame env (set_DeviceNetworkStatus dnStatus ctx2))
      as (_ & _ & Hs & _).
    destruct (DoDNSUpdate_writes env (set_DeviceNetworkStatus dnStatus ctx2))
      as (Hu & Hch & Hpub).
    pose proof (DoDNSUpdate_led_signals_eq env
                  (set_DeviceNetworkStatus dnStatus ctx2)) as Hled.
    unfold ctx_of in Hs, Hu, Hch, Hpub. cbn in Hs, Hu, Hch, Hpub, Hled.
    rewrite Hu2 in Hled. rewrite Hpub2 in Hpub.
    split; [case_decide; reflexivity|].
    split; [exact Hs|].
    split.
    + intros Heq. exfalso. apply Hst. symmetry. exact Heq.
    + intros _.
      split; [cbn; rewrite Hpub2; case_decide; reflexivity|].
      split; [exact Hu|]. split; [exact Hch|].
      cbn zeta.
      split; [reflexivity|].
      split; [|exact Hpub].
      rewrite Hled. case_decide; reflexivity.
Qed.

(** C3, amended. An accepted Delete (its priority is the active one)
    resets the active priority to 0 and takes the zero [DevicePortConfig] as
    candidate: the DHCP client is called with it and the active
    configuration exactly when the active configuration differs from it, and
    the zero configuration is active afterwards.  The status projector is not
    called: the new status is the zero [DeviceNetworkStatus], which replaces
    the active status, followed by [DoDNSUpdate], exactly when the active
    status differs from it; the context and the rest of the trace are then
    those of [DoDNSUpdate] (count cached, signal of a crossing sent, status
    published and stored if the publication is there, [Changed] set). *)
Theorem HandleDPCDelete_owning (env : Collaborators) (key : string)
    (ctx : DeviceNetworkContext) :
  priority_of_key key = DevicePortConfigPrio ctx ->
  let r := HandleDPCDelete env key ctx in
  projector_calls (trace_of r) = [] /\
  DevicePortConfigPrio (ctx_of r) = 0 /\
  dhcp_calls (trace_of r) =
    (if decide (DevicePortConfig ctx = zero_DevicePortConfig) then []
     else [(zero_DevicePortConfig, DevicePortConfig ctx)]) /\
  DevicePortConfig (ctx_of r) = zero_DevicePortConfig /\
  DeviceNetworkStatus (ctx_of r) = zero_DeviceNetworkStatus /\
  (DeviceNetworkStatus ctx = zero_DeviceNetworkStatus ->
     led_signals (trace_of r) = [] /\
     status_publications (trace_of r) = [] /\
     UsableAddressCount (ctx_of r) = UsableAddressCount ctx /\
     Changed (ctx_of r) = Changed ctx /\
     PubDeviceNetworkStatus (ctx_of r) = PubDeviceNetworkStatus ctx) /\
  (DeviceNetworkStatus ctx <> zero_DeviceNetworkStatus ->
     status_publications (trace_of r) =
       match PubDeviceNetworkStatus ctx with
       | Some _ => [("global"%string, zero_DeviceNetworkStatus)]
       | None => []
       end /\
     UsableAddressCount (ctx_of r) =
       CountLocalAddrAnyNoLinkLocal env zero_DeviceNetworkStatus /\
     Changed (ctx_of r) = true /\
     let count :=
       CountLocalAddrAnyNoLinkLocal env zero_DeviceNetworkStatus in
     let ctx2 :=
       if decide (DevicePortConfig ctx = zero_DevicePortConfig)
       then set_DevicePortConfigPrio 0 ctx
       else set_DevicePortConfig zero_DevicePortConfig
              (set_DevicePortConfigPrio 0 ctx) in
     let r' :=
       DoDNSUpdate env
         (set_DeviceNetworkStatus zero_DeviceNetworkStatus ctx2) in
     r = (tt, ctx_of r',
          (if decide (DevicePortConfig ctx = zero_DevicePortConfig) then []
           else [CallUpdateDhcpClient zero_DevicePortConfig
                   (DevicePortConfig ctx)])
          ++ trace_of r') /\
     led_signals (trace_of r) =
       (if (count =? 0) && negb (UsableAddressCount ctx =? 0) then [1]
        else if negb (count =? 0) && (UsableAddressCount ctx =? 0) then [2]
        else []) /\
     PubDeviceNetworkStatus (ctx_of r) =
       match PubDeviceNetworkStatus ctx with
       | Some pub =>
           Some (<["global"%string := zero_DeviceNetworkStatus]> pub)
       | None => None
       end).
Proof.
  intros Hown r. apply dpc_delete_ignored_spec in Hown.
  subst r.
  rewrite (HandleDPCDelete_accepted env key ctx Hown).
  cbn zeta.
  set (ctx2 := if decide (DevicePortConfig ctx = zero_DevicePortConfig)
               then set_DevicePortConfigPrio 0 ctx
               else set_DevicePortConfig zero_DevicePortConfig
                      (set_DevicePortConfigPrio 0 ctx)).
  assert (Hctx2 : DevicePortConfigPrio ctx2 = 0 /\
                  DevicePortConfig ctx2 = zero_DevicePortConfig /\
                  DeviceNetworkStatus ctx2 = DeviceNetworkStatus ctx /\
                  UsableAddressCount ctx2 = UsableAddressCount ctx /\
                  Changed ctx2 = Changed ctx /\
                  PubDeviceNetworkStatus ctx2 = PubDeviceNetworkStatus ctx).
  { subst ctx2. case_decide; cbn; auto 10. }
  destruct Hctx2 as (Hp2 & Hc2 & Hs2 & Hu2 & Hch2 & Hpub2).
  case_decide as Hst.
  - cbn [trace_of ctx_of fst snd].
    split; [case_decide; reflexivity|].
    split; [exact Hp2|].
    split; [case_decide; reflexivity|].
    split; [exact Hc2|].
    split; [rewrite Hs2; exact Hst|].
    split.
    + intros _. repeat split; try assumption; case_decide; reflexivity.
    + intros Hne. contradiction.
  - cbn [trace_of ctx_of fst snd]. trace_facts.
    destruct (DoDNSUpdate_frame env
                (set_DeviceNetworkStatus zero_DeviceNetworkStatus ctx2))
      as (Hc & Hp & Hs & _).
    destruct (DoDNSUpdate_writes env
                (set_DeviceNetworkStatus zero_DeviceNetworkStatus ctx2))
      as (Hu & Hch & Hpub).
    pose proof (DoDNSUpdate_led_signals_eq env
                  (set_DeviceNetworkStatus zero_DeviceNetworkStatus ctx2))
      as Hled.
    unfold ctx_of in Hc, Hp, Hs, Hu, Hch, Hpub.
    cbn in Hc, Hp, Hs, Hu, Hch, Hpub, Hled.
    rewrite Hu2 in Hled. rewrite Hpub2 in Hpub.
    split; [case_decide; reflexivity|].
    split; [exact (eq_trans Hp Hp2)|].
    split; [case_decide; reflexivity|].
    split; [exact (eq_trans Hc Hc2)|].
    split; [exact Hs|].
    split.
    + intros Heq. contradiction.
    + intros _.
      split; [cbn; rewrite Hpub2; case_decide; reflexivity|].
      split; [exact Hu|]. split; [exact Hch|].
      cbn zeta.
      split; [reflexivity|].
      split; [|exact Hpub].
      rewrite Hled. case_decide; reflexivity.
Qed.

(** C8, amended. Every run of [DoDNSUpdate] on a context whose
    [PubDeviceNetworkStatus] is not nil publishes the active status under
    the key "global" exactly once, whether or not the address count crossed
    zero, and stores it in the publication; with a nil
    [PubDeviceNetworkStatus] nothing is published.  Within
    [HandleDPCModify] and [HandleDPCDelete] the status is therefore
    published exactly when the event is accepted, the new status differs
    structurally from the active one and the publication is not nil. *)
Theorem DoDNSUpdate_publication (env : Collaborators)
    (ctx : DeviceNetworkContext) :
  status_publications (trace_of (DoDNSUpdate env ctx)) =
    match PubDeviceNetworkStatus ctx with
    | Some _ => [("global"%string, DeviceNetworkStatus ctx)]
    | None => []
    end /\
  PubDeviceNetworkStatus (ctx_of (DoDNSUpdate env ctx)) =
    match PubDeviceNetworkStatus ctx with
    | Some pub => Some (<["global"%string := DeviceNetworkStatus ctx]> pub)
    | None => None
    end /\
  (forall key portConfig,
     let dnStatus :=
       fst (MakeDeviceNetworkStatus env portConfig
              (DeviceNetworkStatus ctx)) in
     status_publications
       (trace_of (HandleDPCModify env key portConfig ctx)) =
       if dpc_modify_ignored ctx key then []
       else if decide (DeviceNetworkStatus ctx = dnStatus) then []
       else match PubDeviceNetworkStatus ctx with
            | Some _ => [("global"%string, dnStatus)]
            | None => []
            end) /\
  (forall key,
     status_publications (trace_of (HandleDPCDelete env key ctx)) =
       if dpc_delete_ignored ctx key then []
       else if decide (DeviceNetworkStatus ctx = zero_DeviceNetworkStatus)
       then []
       else match PubDeviceNetworkStatus ctx with
            | Some _ => [("global"%string, zero_DeviceNetworkStatus)]
            | None => []
            end).
Proof.
  split; [apply DoDNSUpdate_status_publications|].
  split; [apply DoDNSUpdate_writes|].
  split.
  - intros key portConfig dnStatus.
    destruct (dpc_modify_ignored ctx key) eqn:Hig.
    + rewrite (HandleDPCModify_ignored env key portConfig ctx Hig).
      reflexivity.
    + rewrite (HandleDPCModify_accepted env key portConfig ctx Hig).
      cbn zeta. fold dnStatus.
      case_decide as Hst; cbn [trace_of snd]; trace_facts.
      * case_decide; reflexivity.
      * cbn. case_decide; cbn; reflexivity.
  - intros key.
    destruct (dpc_delete_ignored ctx key) eqn:Hig.
    + rewrite (HandleDPCDelete_ignored env key ctx Hig). reflexivity.
    + rewrite (HandleDPCDelete_accepted env key ctx Hig).
      cbn zeta.
      case_decide as Hst; cbn [trace_of snd]; trace_facts.
      * case_decide; reflexivity.
      * cbn. case_decide; cbn; reflexivity.
Qed.

(** ** Further properties of the legacy handlers *)

(** [HandleDNCModify] on a key that is not the registered one. *)
Lemma HandleDNCModify_other_key (env : Collaborators) (key : string)
    (config : types_DeviceNetworkConfig) (ctx : DeviceNetworkContext) :
  key <> ManufacturerModel ctx ->
  HandleDNCModify env key config ctx = (tt, ctx, []).
Proof.
  intros Hne. run_handler. rewrite decide_True by exact Hne. reflexivity.
Qed.

(** X1. Both legacy handlers return at once on a key that is not the
    registered manufacturer/model: same context, empty trace. *)
Theorem legacy_handlers_ignore_other_keys (env : Collaborators)
    (key : string) (config : types_DeviceNetworkConfig)
    (ctx : DeviceNetworkContext) :
  key <> ManufacturerModel ctx ->
  HandleDNCModify env key config ctx = (tt, ctx, []) /\
  HandleDNCDelete env key ctx = (tt, ctx, []).
Proof.
  intros Hne. split.
  - apply HandleDNCModify_other_key, Hne.
  - run_handler. rewrite decide_True by exact Hne. reflexivity.
Qed.

(** [HandleDNCModify] with the registered key, as context and trace. *)
Lemma HandleDNCModify_registered (env : Collaborators) (key : string)
    (config : types_DeviceNetworkConfig) (ctx : DeviceNetworkContext) :
  key = ManufacturerModel ctx ->
  let portConfig := MakeDevicePortConfig env config in
  HandleDNCModify env key config ctx =
    if decide (published_global ctx = portConfig)
    then (tt, set_DeviceNetworkConfig config ctx,
          [CallMakeDevicePortConfig config])
    else (tt,
          set_PubDevicePortConfig
            (<["global"%string := portConfig]> (PubDevicePortConfig ctx))
            (set_DeviceNetworkConfig config ctx),
          [CallMakeDevicePortConfig config;
           PublishDevicePortConfig "global" portConfig]).
Proof.
  intros Hkey. run_handler.
  rewrite decide_False by (intros Hne; apply Hne; exact Hkey).
  cbn. case_decide; reflexivity.
Qed.

(** X2. After a [HandleDNCModify] with the registered key, what
    [PubDevicePortConfig] holds under "global" (the zero value when it
    holds nothing) is the port configuration built from the payload; it was
    published in this call exactly when it differs from what was held
    before, and no other key of the publication is written. *)
Theorem HandleDNCModify_publishes_on_change (env : Collaborators)
    (key : string) (config : types_DeviceNetworkConfig)
    (ctx : DeviceNetworkContext) :
  key = ManufacturerModel ctx ->
  let portConfig := MakeDevicePortConfig env config in
  let r := HandleDNCModify env key config ctx in
  published_global (ctx_of r) = portConfig /\
  port_config_publications (trace_of r) =
    (if decide (published_global ctx = portConfig) then []
     else [("global"%string, portConfig)]) /\
  (forall k : string,
     k <> "global"%string ->
     PubDevicePortConfig (ctx_of r) !! k = PubDevicePortConfig ctx !! k).
Proof.
  intros Hkey portConfig r. subst r portConfig. run_handler.
  rewrite decide_False by (intros Hne; apply Hne; exact Hkey).
  cbn. case_decide as Hsame; cbn.
  - split; [exact Hsame|]. split; [reflexivity|]. reflexivity.
  - split.
    + unfold published_global. cbn. rewrite lookup_insert_eq. reflexivity.
    + split; [reflexivity|].
      intros k Hk. rewrite lookup_insert_ne by congruence. reflexivity.
Qed.

(** X3. [HandleDNCModify] is idempotent: a second delivery of the same
    key and payload, built the same way, leaves the context of the first
    one as it is and publishes nothing. *)
Theorem HandleDNCModify_idempotent (env : Collaborators) (key : string)
    (config : types_DeviceNetworkConfig) (ctx : DeviceNetworkContext) :
  let r1 := HandleDNCModify env key config ctx in
  let r2 := HandleDNCModify env key config (ctx_of r1) in
  ctx_of r2 = ctx_of r1 /\
  port_config_publications (trace_of r2) = [].
Proof.
  destruct (decide (key = ManufacturerModel ctx)) as [Hkey|Hkey].
  - cbn zeta.
    rewrite (HandleDNCModify_registered env key config ctx Hkey).
    cbn zeta. case_decide as Hsame; unfold ctx_of; cbn [fst snd].
    + rewrite (HandleDNCModify_registered env key config
                 (set_DeviceNetworkConfig config ctx) Hkey).
      cbn zeta. rewrite decide_True by exact Hsame.
      cbn [fst snd trace_of]. split; reflexivity.
    + set (ctx1 := set_PubDevicePortConfig
                     (<["global"%string := MakeDevicePortConfig env config]>
                        (PubDevicePortConfig ctx))
                     (set_DeviceNetworkConfig config ctx)).
      assert (Hpub : published_global ctx1 = MakeDevicePortConfig env config).
      { unfold published_global. cbn. rewrite lookup_insert_eq.
        reflexivity. }
      rewrite (HandleDNCModify_registered env key config ctx1 Hkey).
      cbn zeta. rewrite decide_True by exact Hpub.
      cbn [fst snd trace_of]. subst ctx1. destruct ctx; split; reflexivity.
  - cbn zeta.
    pose proof (HandleDNCModify_other_key env key config ctx Hkey) as Hm.
    rewrite Hm. unfold ctx_of. cbn [fst snd]. rewrite Hm.
    split; reflexivity.
Qed.

(** X4. [HandleDNCDelete] does what [HandleDNCModify] does with the zero
    [DeviceNetworkConfig] as payload; with the registered key it stores the
    zero value as raw configuration and leaves under "global" the port
    configuration built from the zero value, published in this call exactly
    when it differs from what was held before. *)
Theorem HandleDNCDelete_resets_raw_config (env : Collaborators)
    (key : string) (ctx : DeviceNetworkContext) :
  key = ManufacturerModel ctx ->
  let portConfig := MakeDevicePortConfig env zero_DeviceNetworkConfig in
  let r := HandleDNCDelete env key ctx in
  r = HandleDNCModify env key zero_DeviceNetworkConfig ctx /\
  DeviceNetworkConfig (ctx_of r) = zero_DeviceNetworkConfig /\
  published_global (ctx_of r) = portConfig /\
  port_config_publications (trace_of r) =
    (if decide (published_global ctx = portConfig) then []
     else [("global"%string, portConfig)]).
Proof.
  intros Hkey portConfig r. subst r portConfig.
  split; [reflexivity|]. run_handler.
  rewrite decide_False by (intros Hne; apply Hne; exact Hkey).
  cbn. case_decide as Hsame; cbn.
  - split; [reflexivity|]. split; [exact Hsame|reflexivity].
  - split; [reflexivity|]. split; [|reflexivity].
    unfold published_global. cbn. rewrite lookup_insert_eq. reflexivity.
Qed.

(** X5. The legacy handlers stay out of the arbitration: whatever the key
    and the payload, the active configuration, priority and status, the
    cached count, the [Changed] flag and the status publication keep their
    values, and the DHCP client, the status projector and the LED manager
    are not called. *)
Theorem legacy_handlers_leave_arbitration (env : Collaborators)
    (key : string) (config : types_DeviceNetworkConfig)
    (ctx : DeviceNetworkContext) :
  arbitration_untouched ctx
    (ctx_of (HandleDNCModify env key config ctx))
    (trace_of (HandleDNCModify env key config ctx)) /\
  arbitration_untouched ctx
    (ctx_of (HandleDNCDelete env key ctx))
    (trace_of (HandleDNCDelete env key ctx)).
Proof.
  unfold arbitration_untouched.
  split; run_handler; repeat case_decide; cbn; auto 15.
Qed.

(** ** Further properties of the arbitration *)

(** What one delivered event does to the status side of the context:
    nothing at all, or a new status followed by [DoDNSUpdate]. *)
Lemma deliver_status_effect (ev : Event) (ctx : DeviceNetworkContext) :
  let r := deliver ev ctx in
  let ctx' := ctx_of r in
  let count :=
    CountLocalAddrAnyNoLinkLocal (event_env ev) (DeviceNetworkStatus ctx') in
  (DeviceNetworkStatus ctx' = DeviceNetworkStatus ctx /\
   UsableAddressCount ctx' = UsableAddressCount ctx /\
   Changed ctx' = Changed ctx /\
   PubDeviceNetworkStatus ctx' = PubDeviceNetworkStatus ctx /\
   led_signals (trace_of r) = [] /\
   status_publications (trace_of r) = []) \/
  (DeviceNetworkStatus ctx' <> DeviceNetworkStatus ctx /\
   UsableAddressCount ctx' = count /\
   Changed ctx' = true /\
   PubDeviceNetworkStatus ctx' =
     match PubDeviceNetworkStatus ctx with
     | Some pub =>
         Some (<["global"%string := DeviceNetworkStatus ctx']> pub)
     | None => None
     end /\
   led_signals (trace_of r) =
     (if (count =? 0) && negb (UsableAddressCount ctx =? 0) then [1]
      else if negb (count =? 0) && (UsableAddressCount ctx =? 0) then [2]
      else []) /\
   status_publications (trace_of r) =
     match PubDeviceNetworkStatus ctx with
     | Some _ => [("global"%string, DeviceNetworkStatus ctx')]
     | None => []
     end).
Proof.
  assert (Hnotify : forall env ctx2 t2 s,
    DeviceNetworkStatus ctx2 = DeviceNetworkStatus ctx ->
    UsableAddressCount ctx2 = UsableAddressCount ctx ->
    PubDeviceNetworkStatus ctx2 = PubDeviceNetworkStatus ctx ->
    led_signals t2 = [] -> status_publications t2 = [] ->
    DeviceNetworkStatus ctx <> s ->
    let r := DoDNSUpdate env (set_DeviceNetworkStatus s ctx2) in
    let count := CountLocalAddrAnyNoLinkLocal env s in
    DeviceNetworkStatus (ctx_of r) = s /\
    UsableAddressCount (ctx_of r) = count /\
    Changed (ctx_of r) = true /\
    PubDeviceNetworkStatus (ctx_of r) =
      match PubDeviceNetworkStatus ctx with
      | Some pub => Some (<["global"%string := s]> pub)
      | None => None
      end /\
    led_signals (t2 ++ trace_of r) =
      (if (count =? 0) && negb (UsableAddressCount ctx =? 0) then [1]
       else if negb (count =? 0) && (UsableAddressCount ctx =? 0) then [2]
       else []) /\
    status_publications (t2 ++ trace_of r) =
      match PubDeviceNetworkStatus ctx with
      | Some _ => [("global"%string, s)]
      | None => []
      end).
  { intros env ctx2 t2 s Hs2 Hu2 Hpub2 Hled2 Hsp2 Hne r count.
    destruct (DoDNSUpdate_frame env (set_DeviceNetworkStatus s ctx2))
      as (_ & _ & Hs & _).
    destruct (DoDNSUpdate_writes env (set_DeviceNetworkStatus s ctx2))
      as (Hu & Hch & Hpub).
    pose proof (DoDNSUpdate_led_signals_eq env
                  (set_DeviceNetworkStatus s ctx2)) as Hled.
    pose proof (DoDNSUpdate_status_publications env
                  (set_DeviceNetworkStatus s ctx2)) as Hsp.
    cbn in Hs, Hu, Hch, Hpub, Hled, Hsp.
    rewrite Hu2 in Hled. rewrite Hpub2 in Hpub, Hsp.
    subst r count.
    rewrite led_signals_app, status_publications_app, Hled2, Hsp2.
    cbn [app]. auto 10. }
  destruct ev as [env key portConfig | env key]; cbn [deliver event_env].
  - destruct (dpc_modify_ignored ctx key) eqn:Hig.
    + rewrite (HandleDPCModify_ignored env key portConfig ctx Hig).
      left. cbn. auto 10.
    + rewrite (HandleDPCModify_accepted env key portConfig ctx Hig).
      cbn zeta.
      set (ctx2 := if decide (DevicePortConfig ctx = portConfig)
                   then set_DevicePortConfigPrio (priority_of_key key) ctx
                   else set_DevicePortConfig portConfig
                          (set_DevicePortConfigPrio (priority_of_key key)
                             ctx)).
      set (t3 := (if decide (DevicePortConfig ctx = portConfig) then []
                  else [CallUpdateDhcpClient portConfig
                          (DevicePortConfig ctx)])
                 ++ [CallMakeDeviceNetworkStatus portConfig
                       (DeviceNetworkStatus ctx)]).
      assert (H2 : DeviceNetworkStatus ctx2 = DeviceNetworkStatus ctx /\
                   UsableAddressCount ctx2 = UsableAddressCount ctx /\
                   Changed ctx2 = Changed ctx /\
                   PubDeviceNetworkStatus ctx2 = PubDeviceNetworkStatus ctx /\
                   led_signals t3 = [] /\ status_publications t3 = []).
      { subst ctx2 t3. case_decide; cbn; auto 10. }
      destruct H2 as (Hs2 & Hu2 & Hch2 & Hpub2 & Hled2 & Hsp2).
      case_decide as Hst.
      * left. cbn [ctx_of trace_of fst snd]. auto 10.
      * right. cbn [ctx_of trace_of fst snd].
        destruct (Hnotify env ctx2 t3 _ Hs2 Hu2 Hpub2 Hled2 Hsp2 Hst)
          as (Hs & Hu & Hch & Hpub & Hled & Hsp).
        cbn zeta in Hs, Hu, Hch, Hpub, Hled, Hsp.
        rewrite Hs.
        split; [intros Heq; apply Hst; symmetry; exact Heq|]. auto 10.
  - destruct (dpc_delete_ignored ctx key) eqn:Hig.
    + rewrite (HandleDPCDelete_ignored env key ctx Hig).
      left. cbn. auto 10.
    + rewrite (HandleDPCDelete_accepted env key ctx Hig).
      cbn zeta.
      set (ctx2 := if decide (DevicePortConfig ctx = zero_DevicePortConfig)
                   then set_DevicePortConfigPrio 0 ctx
                   else set_DevicePortConfig zero_DevicePortConfig
                          (set_DevicePortConfigPrio 0 ctx)).
      set (t3 := if decide (DevicePortConfig ctx = zero_DevicePortConfig)
                 then []
                 else [CallUpdateDhcpClient zero_DevicePortConfig
                         (DevicePortConfig ctx)]).
      assert (H2 : DeviceNetworkStatus ctx2 = DeviceNetworkStatus ctx /\
                   UsableAddressCount ctx2 = UsableAddressCount ctx /\
                   Changed ctx2 = Changed ctx /\
                   PubDeviceNetworkStatus ctx2 = PubDeviceNetworkStatus ctx /\
                   led_signals t3 = [] /\ status_publications t3 = []).
      { subst ctx2 t3. case_decide; cbn; auto 10. }
      destruct H2 as (Hs2 & Hu2 & Hch2 & Hpub2 & Hled2 & Hsp2).
      case_decide as Hst.
      * left. cbn [ctx_of trace_of fst snd]. auto 10.
      * right. cbn [ctx_of trace_of fst snd].
        destruct (Hnotify env ctx2 t3 _ Hs2 Hu2 Hpub2 Hled2 Hsp2 Hst)
          as (Hs & Hu & Hch & Hpub & Hled & Hsp).
        cbn zeta in Hs, Hu, Hch, Hpub, Hled, Hsp.
        rewrite Hs.
        split; [intros Heq; apply Hst; symmetry; exact Heq|]. auto 10.
Qed.

Lemma run_led_signals_cons (st : Step) (steps : list Step) :
  run_led_signals (st :: steps) =
  led_signals (effects st) ++ run_led_signals steps.
Proof. reflexivity. Qed.

(** X6. The LED manager is never told the same thing twice in a row:
    over any run of Modify and Delete events the signals sent alternate
    between 1 and 2, and the first one is 2 when the cached count of the
    initial context is 0 and 1 otherwise. *)
Theorem led_signals_alternate (evs : list Event) :
  forall ctx : DeviceNetworkContext,
    alternating (UsableAddressCount ctx =? 0)
      (run_led_signals (exec ctx evs)).
Proof.
  induction evs as [|ev evs IH]; intros ctx; cbn [exec].
  - exact I.
  - rewrite run_led_signals_cons. cbn [effects].
    specialize (IH (ctx_of (deliver ev ctx))).
    destruct (deliver_status_effect ev ctx)
      as [(_ & Hu & _ & _ & Hled & _) | (_ & Hu & _ & _ & Hled & _)];
      cbn zeta in Hu, Hled; rewrite Hled.
    + rewrite Hu in IH. exact IH.
    + rewrite Hu in IH.
      destruct (Z.eqb_spec
                  (CountLocalAddrAnyNoLinkLocal (event_env ev)
                     (DeviceNetworkStatus (ctx_of (deliver ev ctx)))) 0)
        as [Hc|Hc];
        destruct (Z.eqb_spec (UsableAddressCount ctx) 0) as [Hp|Hp];
        cbn; auto.
Qed.

(** X7. With one counting function for all events, a cached count that
    is the count of the active status stays so over any run of Modify and
    Delete events. *)
Theorem count_cache_stays_current
    (count : types_DeviceNetworkStatus -> Z) (evs : list Event) :
  forall ctx : DeviceNetworkContext,
    Forall (fun ev =>
              forall s, CountLocalAddrAnyNoLinkLocal (event_env ev) s
                        = count s) evs ->
    count_cache_current count ctx ->
    count_cache_current count (final ctx evs).
Proof.
  unfold count_cache_current.
  induction evs as [|ev evs IH]; intros ctx Hcount Hcur; cbn [final].
  - exact Hcur.
  - inversion Hcount as [|? ? Hev Hrest]; subst.
    apply IH; [exact Hrest|].
    destruct (deliver_status_effect ev ctx)
      as [(Hs & Hu & _) | (_ & Hu & _)]; cbn zeta in *.
    + rewrite Hs, Hu. exact Hcur.
    + rewrite Hu. apply Hev.
Qed.

(** X8. What subscribers can read under "global" is never stale: when
    the item published there, if any, is the active status, this is still so
    after any run of Modify and Delete events. *)
Theorem status_publication_stays_current (evs : list Event) :
  forall ctx : DeviceNetworkContext,
    status_publication_current ctx ->
    status_publication_current (final ctx evs).
Proof.
  unfold status_publication_current.
  induction evs as [|ev evs IH]; intros ctx Hcur; cbn [final].
  - exact Hcur.
  - apply IH.
    destruct (deliver_status_effect ev ctx)
      as [(Hs & _ & _ & Hpub & _) | (_ & _ & _ & Hpub & _)];
      cbn zeta in *; rewrite Hpub.
    + rewrite Hs. exact Hcur.
    + destruct (PubDeviceNetworkStatus ctx) as [pub|]; [|exact I].
      rewrite lookup_insert_eq. reflexivity.
Qed.

Lemma Changed_stays_set (evs : list Event) :
  forall ctx : DeviceNetworkContext,
    Changed ctx = true -> Changed (final ctx evs) = true.
Proof.
  induction evs as [|ev evs IH]; intros ctx Hch; cbn [final].
  - exact Hch.
  - apply IH.
    destruct (deliver_status_effect ev ctx)
      as [(_ & _ & Hc & _) | (_ & _ & Hc & _)]; cbn zeta in *.
    + rewrite Hc. exact Hch.
    + exact Hc.
Qed.

(** X9. The [Changed] flag misses nothing: when it is still false after a
    run of Modify and Delete events, the active status, the cached count and
    the status publication are those of the initial context, and the run
    sent no signal and published no status. *)
Theorem Changed_false_means_status_untouched (evs : list Event) :
  forall ctx : DeviceNetworkContext,
    Changed (final ctx evs) = false ->
    DeviceNetworkStatus (final ctx evs) = DeviceNetworkStatus ctx /\
    UsableAddressCount (final ctx evs) = UsableAddressCount ctx /\
    PubDeviceNetworkStatus (final ctx evs) = PubDeviceNetworkStatus ctx /\
    Forall (fun st => led_signals (effects st) = [] /\
                      status_publications (effects st) = [])
           (exec ctx evs).
Proof.
  induction evs as [|ev evs IH]; intros ctx Hch; cbn [final exec] in *.
  - auto.
  - destruct (deliver_status_effect ev ctx)
      as [(Hs & Hu & Hc & Hpub & Hled & Hsp) | (_ & _ & Hc & _)];
      cbn zeta in *.
    + destruct (IH _ Hch) as (Hs' & Hu' & Hpub' & Hall).
      rewrite Hs', Hu', Hpub'.
      split; [exact Hs|]. split; [exact Hu|]. split; [exact Hpub|].
      constructor; [split; assumption | exact Hall].
    + rewrite (Changed_stays_set evs _ Hc) in Hch. discriminate Hch.
Qed.

(** X10. An owner with a better priority is shielded: on a context with
    a non-zero active priority, a run of Modify and Delete events whose keys
    all have a larger priority value changes nothing at all and calls
    nothing. *)
Theorem lower_priority_events_change_nothing (evs : list Event) :
  forall ctx : DeviceNetworkContext,
    DevicePortConfigPrio ctx <> 0 ->
    Forall (fun ev =>
              priority_of_key (event_key ev) > DevicePortConfigPrio ctx)
           evs ->
    final ctx evs = ctx /\
    Forall (fun st => after st = ctx /\ effects st = []) (exec ctx evs).
Proof.
  induction evs as [|ev evs IH]; intros ctx Hown Hlow; cbn [final exec].
  - split; [reflexivity|constructor].
  - inversion Hlow as [|? ? Hev Hrest]; subst.
    assert (Hig : accepted ctx ev = false).
    { destruct ev as [env key portConfig | env key]; cbn in *.
      - apply negb_false_iff. unfold dpc_modify_ignored. cbn.
        apply andb_true_iff. split.
        + apply negb_true_iff, Z.eqb_neq. exact Hown.
        + apply Z.gtb_gt. exact Hev.
      - apply negb_false_iff. unfold dpc_delete_ignored. cbn.
        apply negb_true_iff, Z.eqb_neq. lia. }
    rewrite (deliver_ignored ev ctx Hig). unfold ctx_of, trace_of.
    cbn [fst snd].
    destruct (IH ctx Hown Hrest) as [Hfin Hall].
    split; [exact Hfin|].
    constructor; [split; reflexivity | exact Hall].
Qed.

(** X11. In a run of Modify events alone the active priority, once set,
    never gets a larger value and never returns to 0: only a Delete gives
    the arbitration back to a source of lower priority. *)
Theorem modify_run_priority_never_rises
    (ms : list (Collaborators * string * types_DevicePortConfig)) :
  forall ctx : DeviceNetworkContext,
    DevicePortConfigPrio ctx <> 0 ->
    DevicePortConfigPrio (final ctx (map modify_event ms))
      <= DevicePortConfigPrio ctx /\
    DevicePortConfigPrio (final ctx (map modify_event ms)) <> 0.
Proof.
  induction ms as [|[[env key] portConfig] ms IH]; intros ctx Hset;
    cbn [map final].
  - split; [lia | exact Hset].
  - unfold modify_event at 1 3. cbn [fst snd deliver].
    destruct (dpc_modify_ignored ctx key) eqn:Hig.
    + rewrite (HandleDPCModify_ignored env key portConfig ctx Hig).
      unfold ctx_of. cbn [fst snd]. apply IH. exact Hset.
    + destruct (HandleDPCModify_accepted_fields env key portConfig ctx Hig)
        as [_ Hp].
      cbn zeta in Hp.
      apply dpc_modify_ignored_spec in Hig.
      destruct Hig as [Hzero | Hle]; [contradiction|].
      assert (Hnz : DevicePortConfigPrio
                      (ctx_of (HandleDPCModify env key portConfig ctx))
                    <> 0).
      { rewrite Hp.
        destruct (priority_of_key_range key) as [H|[H|H]]; rewrite H; lia. }
      destruct (IH _ Hnz) as [Hle' Hnz'].
      split; [|exact Hnz'].
      rewrite Hp in Hle'. lia.
Qed.

(** X12. The active priority is always one of 0, 1, 2, 3: a context
    whose priority is in that range keeps it there over any run of Modify
    and Delete events. *)
Theorem priority_stays_in_range (evs : list Event) :
  forall ctx : DeviceNetworkContext,
    0 <= DevicePortConfigPrio ctx <= 3 ->
    0 <= DevicePortConfigPrio (final ctx evs) <= 3.
Proof.
  induction evs as [|ev evs IH]; intros ctx Hrange; cbn [final].
  - exact Hrange.
  - apply IH.
    destruct (accepted ctx ev) eqn:Hacc.
    + rewrite (deliver_accepted_prio ev ctx Hacc).
      destruct ev as [env key portConfig | env key]; [|lia].
      destruct (priority_of_key_range key) as [H|[H|H]]; rewrite H; lia.
    + rewrite (deliver_ignored ev ctx Hacc). exact Hrange.
Qed.

(** X13. [HandleDPCDelete] is idempotent: whatever the first Delete did,
    a second Delete with the same key is ignored, leaves the context as it
    is and calls nothing. *)
Theorem HandleDPCDelete_idempotent (env env' : Collaborators)
    (key : string) (ctx : DeviceNetworkContext) :
  let ctx1 := ctx_of (HandleDPCDelete env key ctx) in
  HandleDPCDelete env' key ctx1 = (tt, ctx1, []).
Proof.
  cbn zeta. apply HandleDPCDelete_ignored.
  destruct (dpc_delete_ignored ctx key) eqn:Hig.
  - rewrite (HandleDPCDelete_ignored env key ctx Hig). exact Hig.
  - unfold dpc_delete_ignored. cbn zeta.
    rewrite (HandleDPCDelete_accepted_prio env key ctx Hig).
    apply negb_true_iff, Z.eqb_neq.
    destruct (priority_of_key_range key) as [H|[H|H]]; rewrite H; lia.
Qed.

(** X14. After the owner's Delete every source gets through: a Modify
    with any key that follows an accepted Delete is accepted and leaves its
    payload as active configuration and its priority as active priority. *)
Theorem modify_after_owning_delete_accepted (env env' : Collaborators)
    (key key' : string) (portConfig : types_DevicePortConfig)
    (ctx : DeviceNetworkContext) :
  priority_of_key key = DevicePortConfigPrio ctx ->
  let ctx1 := ctx_of (HandleDPCDelete env key ctx) in
  let ctx2 := ctx_of (HandleDPCModify env' key' portConfig ctx1) in
  dpc_modify_ignored ctx1 key' = false /\
  DevicePortConfig ctx2 = portConfig /\
  DevicePortConfigPrio ctx2 = priority_of_key key'.
Proof.
  intros Hown ctx1 ctx2. apply dpc_delete_ignored_spec in Hown.
  assert (Hacc : dpc_modify_ignored ctx1 key' = false).
  { apply dpc_modify_ignored_spec. left. subst ctx1.
    apply HandleDPCDelete_accepted_prio. exact Hown. }
  split; [exact Hacc|].
  apply (HandleDPCModify_accepted_fields env' key' portConfig ctx1 Hacc).
Qed.

Lemma set_DevicePortConfigPrio_same (ctx : DeviceNetworkContext) :
  set_DevicePortConfigPrio (DevicePortConfigPrio ctx) ctx = ctx.
Proof. destruct ctx; reflexivity. Qed.

(** X15. [HandleDPCModify] is idempotent as long as the projector is
    stable: when projecting the payload against the status the first
    delivery left gives that status again, a second delivery of the same key
    and payload leaves the context as it is, makes no DHCP call, sends no
    signal and publishes nothing. *)
Theorem HandleDPCModify_idempotent (env : Collaborators) (key : string)
    (portConfig : types_DevicePortConfig) (ctx : DeviceNetworkContext) :
  let ctx1 := ctx_of (HandleDPCModify env key portConfig ctx) in
  fst (MakeDeviceNetworkStatus env portConfig (DeviceNetworkStatus ctx1))
    = DeviceNetworkStatus ctx1 ->
  let r2 := HandleDPCModify env key portConfig ctx1 in
  ctx_of r2 = ctx1 /\
  dhcp_calls (trace_of r2) = [] /\
  led_signals (trace_of r2) = [] /\
  status_publications (trace_of r2) = [].
Proof.
  intros ctx1 Hstable r2.
  destruct (dpc_modify_ignored ctx key) eqn:Hig.
  - assert (H1 : ctx1 = ctx).
    { subst ctx1.
      rewrite (HandleDPCModify_ignored env key portConfig ctx Hig).
      reflexivity. }
    subst r2. rewrite H1.
    rewrite (HandleDPCModify_ignored env key portConfig ctx Hig).
    cbn. auto.
  - destruct (HandleDPCModify_accepted_fields env key portConfig ctx Hig)
      as [Hc Hp].
    cbn zeta in Hc, Hp. fold ctx1 in Hc, Hp.
    assert (Hacc : dpc_modify_ignored ctx1 key = false).
    { apply dpc_modify_ignored_spec. right. rewrite Hp. lia. }
    subst r2.
    rewrite (HandleDPCModify_accepted env key portConfig ctx1 Hacc).
    cbn zeta.
    rewrite !(decide_True (P := DevicePortConfig ctx1 = portConfig))
      by exact Hc.
    rewrite decide_True by (symmetry; exact Hstable).
    rewrite <- Hp. rewrite set_DevicePortConfigPrio_same.
    cbn. auto.
Qed.

(** [DoDNSUpdate] and the handlers of the arbitration neither read nor
    write the raw configuration and the port configuration publication. *)
Lemma DoDNSUpdate_legacy_fields (env : Collaborators)
    (raw : types_DeviceNetworkConfig)
    (pub : Publication types_DevicePortConfig)
    (ctx : DeviceNetworkContext) :
  DoDNSUpdate env
    (set_PubDevicePortConfig pub (set_DeviceNetworkConfig raw ctx)) =
  (tt,
   set_PubDevicePortConfig pub
     (set_DeviceNetworkConfig raw (ctx_of (DoDNSUpdate env ctx))),
   trace_of (DoDNSUpdate env ctx)).
Proof.
  run_handler. split_tests; reflexivity.
Qed.

(** Moves the two writes of the legacy fields out of the argument of
    [DoDNSUpdate]. *)
Ltac notify_on_legacy_fields :=
  match goal with
  | |- (_, ctx_of (DoDNSUpdate ?env ?c'), _) =
       (_, set_PubDevicePortConfig ?pub
             (set_DeviceNetworkConfig ?raw (ctx_of (DoDNSUpdate _ ?c))), _) =>
      change (DoDNSUpdate env c')
        with (DoDNSUpdate env
                (set_PubDevicePortConfig pub
                   (set_DeviceNetworkConfig raw c)));
      rewrite (DoDNSUpdate_legacy_fields env raw pub c);
      reflexivity
  end.

Lemma deliver_legacy_fields (ev : Event)
    (raw : types_DeviceNetworkConfig)
    (pub : Publication types_DevicePortConfig)
    (ctx : DeviceNetworkContext) :
  deliver ev
    (set_PubDevicePortConfig pub (set_DeviceNetworkConfig raw ctx)) =
  (tt,
   set_PubDevicePortConfig pub
     (set_DeviceNetworkConfig raw (ctx_of (deliver ev ctx))),
   trace_of (deliver ev ctx)).
Proof.
  set (ctx' := set_PubDevicePortConfig pub (set_DeviceNetworkConfig raw ctx)).
  destruct ev as [env key portConfig | env key]; cbn [deliver].
  - destruct (dpc_modify_ignored ctx key) eqn:Hig.
    + rewrite (HandleDPCModify_ignored env key portConfig ctx Hig).
      rewrite (HandleDPCModify_ignored env key portConfig ctx' Hig).
      reflexivity.
    + rewrite (HandleDPCModify_accepted env key portConfig ctx Hig).
      rewrite (HandleDPCModify_accepted env key portConfig ctx' Hig).
      cbn zeta.
      change (DeviceNetworkStatus ctx') with (DeviceNetworkStatus ctx).
      change (DevicePortConfig ctx') with (DevicePortConfig ctx).
      destruct (decide (DeviceNetworkStatus ctx = _)) as [Hst|Hst];
        destruct (decide (DevicePortConfig ctx = portConfig)) as [Hc|Hc];
        cbn [ctx_of trace_of fst snd]; try reflexivity.
      * subst ctx'. notify_on_legacy_fields.
      * subst ctx'. notify_on_legacy_fields.
  - destruct (dpc_delete_ignored ctx key) eqn:Hig.
    + rewrite (HandleDPCDelete_ignored env key ctx Hig).
      rewrite (HandleDPCDelete_ignored env key ctx' Hig).
      reflexivity.
    + rewrite (HandleDPCDelete_accepted env key ctx Hig).
      rewrite (HandleDPCDelete_accepted env key ctx' Hig).
      cbn zeta.
      change (DeviceNetworkStatus ctx') with (DeviceNetworkStatus ctx).
      change (DevicePortConfig ctx') with (DevicePortConfig ctx).
      destruct (decide (DeviceNetworkStatus ctx = _)) as [Hst|Hst];
        destruct (decide (DevicePortConfig ctx = zero_DevicePortConfig))
          as [Hc|Hc];
        cbn [ctx_of trace_of fst snd]; try reflexivity.
      * subst ctx'. notify_on_legacy_fields.
      * subst ctx'. notify_on_legacy_fields.
Qed.

Lemma deliver_keeps_legacy_fields (ev : Event)
    (ctx : DeviceNetworkContext) :
  let ctx' := ctx_of (deliver ev ctx) in
  ManufacturerModel ctx' = ManufacturerModel ctx /\
  DeviceNetworkConfig ctx' = DeviceNetworkConfig ctx /\
  PubDevicePortConfig ctx' = PubDevicePortConfig ctx.
Proof.
  cbn zeta.
  pose proof (deliver_legacy_fields ev (DeviceNetworkConfig ctx)
                (PubDevicePortConfig ctx) ctx) as Hd.
  replace (set_PubDevicePortConfig (PubDevicePortConfig ctx)
             (set_DeviceNetworkConfig (DeviceNetworkConfig ctx) ctx))
    with ctx in Hd by (destruct ctx; reflexivity).
  split.
  - destruct ev as [env key portConfig | env key]; cbn [deliver].
    + destruct (dpc_modify_ignored ctx key) eqn:Hig.
      * rewrite (HandleDPCModify_ignored env key portConfig ctx Hig).
        reflexivity.
      * rewrite (HandleDPCModify_accepted env key portConfig ctx Hig).
        cbn zeta. repeat case_decide; cbn [ctx_of fst snd];
          try reflexivity;
          match goal with
          | |- context [DoDNSUpdate ?e ?c] =>
              destruct (DoDNSUpdate_frame e c) as (_ & _ & _ & _ & _ & Hm);
              exact Hm
          end.
    + destruct (dpc_delete_ignored ctx key) eqn:Hig.
      * rewrite (HandleDPCDelete_ignored env key ctx Hig). reflexivity.
      * rewrite (HandleDPCDelete_accepted env key ctx Hig).
        cbn zeta. repeat case_decide; cbn [ctx_of fst snd];
          try reflexivity;
          match goal with
          | |- context [DoDNSUpdate ?e ?c] =>
              destruct (DoDNSUpdate_frame e c) as (_ & _ & _ & _ & _ & Hm);
              exact Hm
          end.
  - rewrite Hd at 1 2. unfold ctx_of. cbn [fst snd]. split; reflexivity.
Qed.

(** X16. The legacy path and the arbitration do not interfere:
    delivering a Modify or Delete event and a legacy Modify in either order
    ends in the same context, and so for a legacy Delete. *)
Theorem legacy_and_arbitration_commute (env : Collaborators)
    (key : string) (config : types_DeviceNetworkConfig) (ev : Event)
    (ctx : DeviceNetworkContext) :
  ctx_of (deliver ev (ctx_of (HandleDNCModify env key config ctx))) =
  ctx_of (HandleDNCModify env key config (ctx_of (deliver ev ctx))) /\
  ctx_of (deliver ev (ctx_of (HandleDNCDelete env key ctx))) =
  ctx_of (HandleDNCDelete env key (ctx_of (deliver ev ctx))).
Proof.
  assert (Hmodify : forall config,
    ctx_of (deliver ev (ctx_of (HandleDNCModify env key config ctx))) =
    ctx_of (HandleDNCModify env key config (ctx_of (deliver ev ctx)))).
  { clear config. intros config.
    destruct (deliver_keeps_legacy_fields ev ctx) as (Hm & _ & Hpub).
    cbn zeta in Hm, Hpub.
    destruct (decide (key = ManufacturerModel ctx)) as [Hkey|Hkey].
    - assert (Hkey' : key = ManufacturerModel (ctx_of (deliver ev ctx)))
        by (rewrite Hm; exact Hkey).
      rewrite (HandleDNCModify_registered env key config ctx Hkey).
      rewrite (HandleDNCModify_registered env key config _ Hkey').
      cbn zeta. unfold published_global. rewrite Hpub.
      fold (published_global ctx).
      case_decide as Hsame; unfold ctx_of at 2 4; cbn [fst snd].
      + change (set_DeviceNetworkConfig config ctx)
          with (set_PubDevicePortConfig (PubDevicePortConfig ctx)
                  (set_DeviceNetworkConfig config ctx)).
        rewrite deliver_legacy_fields. unfold ctx_of at 1. cbn [fst snd].
        rewrite <- Hpub at 1. reflexivity.
      + rewrite deliver_legacy_fields. unfold ctx_of at 1. cbn [fst snd].
        reflexivity.
    - assert (Hkey' : key <> ManufacturerModel (ctx_of (deliver ev ctx)))
        by (rewrite Hm; exact Hkey).
      rewrite (HandleDNCModify_other_key env key config ctx Hkey).
      rewrite (HandleDNCModify_other_key env key config _ Hkey').
      reflexivity. }
  split; [apply Hmodify|].
  apply (Hmodify zero_DeviceNetworkConfig).
Qed.

(** X17. [DoDNSUpdate] settles in one run: run again on its own result,
    with the same counting function, it sends no signal and leaves the
    context as it is; it publishes the same status once more when the
    publication is there. *)
Theorem DoDNSUpdate_settles (env : Collaborators)
    (ctx : DeviceNetworkContext) :
  let ctx1 := ctx_of (DoDNSUpdate env ctx) in
  let r2 := DoDNSUpdate env ctx1 in
  ctx_of r2 = ctx1 /\
  led_signals (trace_of r2) = [] /\
  status_publications (trace_of r2) =
    match PubDeviceNetworkStatus ctx with
    | Some _ => [("global"%string, DeviceNetworkStatus ctx)]
    | None => []
    end.
Proof.
  intros ctx1 r2.
  destruct (DoDNSUpdate_frame env ctx) as (_ & _ & Hs & _).
  destruct (DoDNSUpdate_writes env ctx) as (Hu & Hch & Hpub).
  cbn zeta in Hs, Hu, Hch, Hpub. fold ctx1 in Hs, Hu, Hch, Hpub.
  split; [|split].
  - subst r2. revert Hs Hu Hch Hpub. generalize ctx1. clear ctx1.
    intros c Hs Hu Hch Hpub. destruct c. cbn in Hs, Hu, Hch, Hpub.
    subst. run_handler.
    destruct (CountLocalAddrAnyNoLinkLocal env (DeviceNetworkStatus ctx)
              =? 0); cbn;
      destruct (PubDeviceNetworkStatus ctx) as [pub|]; cbn;
      rewrite ?insert_insert_eq; reflexivity.
  - subst r2. rewrite DoDNSUpdate_led_signals_eq. cbn zeta.
    rewrite Hs, Hu.
    destruct (CountLocalAddrAnyNoLinkLocal env (DeviceNetworkStatus ctx)
              =? 0); reflexivity.
  - subst r2. rewrite DoDNSUpdate_status_publications.
    rewrite Hs, Hpub.
    destruct (PubDeviceNetworkStatus ctx); reflexivity.
Qed.

End Properties.

(** * The handlers on concrete contexts *)

Import Sample.
Local Open Scope string_scope.

(** Scenario A: "global", then "override", then zedagent take over in
    turn; a later "global" is ignored. *)
Example scenario_takeover :
  map (fun st => (step_accepted st, DevicePortConfigPrio (after st),
                  DevicePortConfig (after st)))
      (exec fresh
         [Modify (probing no_addrs) "global" ["eth0"];
          Modify (probing no_addrs) "override" ["eth1"];
          Modify (probing no_addrs) "zedagent" ["eth2"];
          Modify (probing no_addrs) "global" ["eth3"]])
  = [(true, 3, ["eth0"]); (true, 2, ["eth1"]); (true, 1, ["eth2"]);
     (false, 1, ["eth2"])].
Proof. vm_compute. reflexivity. Qed.

(** Scenario B: the first address raises signal 2, its loss signal 1. *)
Example scenario_signals :
  map (fun st => (UsableAddressCount (after st), led_signals (effects st)))
      (exec fresh
         [Modify (probing one_addr) "zedagent" ["eth0"];
          Modify (probing no_addrs) "zedagent" ["eth0"]])
  = [(1, [2]); (0, [1])].
Proof. vm_compute. reflexivity. Qed.

(** Scenario C: the owner deletes, then "global" is accepted again. *)
Example scenario_delete :
  map (fun st => (step_accepted st, DevicePortConfigPrio (after st),
                  DevicePortConfig (after st)))
      (exec fresh
         [Modify (probing one_addr) "zedagent" ["eth0"];
          Delete (probing one_addr) "zedagent";
          Modify (probing one_addr) "global" ["eth1"]])
  = [(true, 1, ["eth0"]); (true, 0, []); (true, 3, ["eth1"])].
Proof. vm_compute. reflexivity. Qed.

(** C7 at a concrete context: zedagent owns the configuration and
    "global" is deleted. *)
Lemma HandleDPCDelete_non_owning_frame_witness :
  priority_of_key "global" <> DevicePortConfigPrio zedagent_active /\
  HandleDPCDelete (probing one_addr) "global" zedagent_active
    = (tt, zedagent_active, []).
Proof.
  split.
  - vm_compute. intros H. discriminate H.
  - apply (HandleDPCDelete_non_owning_frame (probing one_addr) "global"
             zedagent_active).
    vm_compute. intros H. discriminate H.
Defined.

(** C10 at a concrete context: "global" owns an empty configuration and
    deletes it. *)
Lemma HandleDPCDelete_owning_on_empty_witness :
  priority_of_key "global" = DevicePortConfigPrio global_empty_active /\
  DevicePortConfig global_empty_active = zero_DevicePortConfig /\
  DeviceNetworkStatus global_empty_active = zero_DeviceNetworkStatus /\
  HandleDPCDelete (probing one_addr) "global" global_empty_active
    = (tt, set_DevicePortConfigPrio 0 global_empty_active, []).
Proof.
  split; [vm_compute; reflexivity|].
  split; [vm_compute; reflexivity|].
  split; [vm_compute; reflexivity|].
  apply (HandleDPCDelete_owning_on_empty (probing one_addr) "global"
           global_empty_active);
    vm_compute; reflexivity.
Defined.

(** C9 at a concrete context: the registered model delivers the same raw
    configuration a second time; nothing is published and the payload is
    stored all the same. *)
Lemma HandleDNCModify_overwrites_raw_config_witness :
  "Supermicro.SYS-E100-9APP" = ManufacturerModel model_delivered /\
  published_global model_delivered
    = MakeDevicePortConfig (probing no_addrs) ["eth0"] /\
  DeviceNetworkConfig
    (ctx_of (HandleDNCModify (probing no_addrs) "Supermicro.SYS-E100-9APP"
               ["eth0"] model_delivered)) = ["eth0"] /\
  port_config_publications
    (trace_of (HandleDNCModify (probing no_addrs) "Supermicro.SYS-E100-9APP"
                 ["eth0"] model_delivered)) = [].
Proof.
  assert (Hkey : "Supermicro.SYS-E100-9APP"
                 = ManufacturerModel model_delivered).
  { vm_compute. reflexivity. }
  assert (Hsame : published_global model_delivered
                  = MakeDevicePortConfig (probing no_addrs) ["eth0"]).
  { vm_compute. reflexivity. }
  split; [exact Hkey|]. split; [exact Hsame|].
  destruct (HandleDNCModify_overwrites_raw_config (probing no_addrs)
              "Supermicro.SYS-E100-9APP" ["eth0"] model_delivered Hkey)
    as [Hraw Hquiet].
  split; [exact Hraw|].
  destruct (Hquiet Hsame) as (_ & Hpub & _). exact Hpub.
Defined.

(** C4 as stated fails: after a Modify and the Delete of its owner the
    active priority is 0 although a Modify was accepted. *)
Lemma DevicePortConfigPrio_zero_after_accepted_modify :
  let evs := [Modify (probing one_addr) "global" ["eth0"];
              Delete (probing one_addr) "global"] in
  DevicePortConfigPrio fresh = 0 /\
  DevicePortConfigPrio (final fresh evs) = 0 /\
  modify_ever_accepted (exec fresh evs) = true.
Proof. vm_compute. auto. Qed.

(** The amended C4 on a run with a take-over, an ignored Delete, the
    owner's Delete and a new Modify. *)
Lemma DevicePortConfigPrio_zero_iff_witness :
  let evs := [Modify (probing one_addr) "global" ["eth0"];
              Modify (probing one_addr) "zedagent" ["eth1"];
              Delete (probing one_addr) "global";
              Delete (probing one_addr) "zedagent"] in
  DevicePortConfigPrio fresh = 0 /\
  (DevicePortConfigPrio (final fresh evs) = 0 <->
   modify_in_force false (exec fresh evs) = false).
Proof.
  intros evs. split; [reflexivity|].
  apply (DevicePortConfigPrio_zero_iff fresh evs). reflexivity.
Defined.

(** C2 as stated fails: zedagent's configuration is submitted again
    unchanged after eth0 lost its address; the projector is called, the
    status is replaced and published. *)
Lemma HandleDPCModify_same_config_reprojects :
  let r := HandleDPCModify (probing no_addrs) "zedagent" ["eth0"]
             zedagent_active in
  dpc_modify_ignored zedagent_active "zedagent" = false /\
  DevicePortConfig zedagent_active = ["eth0"] /\
  projector_calls (trace_of r)
    = [(["eth0"], [("eth0", ["192.168.1.10"])])] /\
  DeviceNetworkStatus zedagent_active = [("eth0", ["192.168.1.10"])] /\
  DeviceNetworkStatus (ctx_of r) = [("eth0", [])] /\
  status_publications (trace_of r) = [("global", [("eth0", [])])].
Proof. vm_compute. auto 10. Qed.

(** The amended C2 at the same input. *)
Lemma HandleDPCModify_same_config_witness :
  let ctx := zedagent_active in
  let r := HandleDPCModify (probing no_addrs) "zedagent"
             (DevicePortConfig ctx) ctx in
  (DevicePortConfigPrio ctx = 0 \/
     priority_of_key "zedagent" <= DevicePortConfigPrio ctx) /\
  dhcp_calls (trace_of r) = [] /\
  projector_calls (trace_of r)
    = [(DevicePortConfig ctx, DeviceNetworkStatus ctx)] /\
  DevicePortConfigPrio (ctx_of r) = priority_of_key "zedagent" /\
  fst (MakeDeviceNetworkStatus (probing no_addrs) (DevicePortConfig ctx)
         (DeviceNetworkStatus ctx)) <> DeviceNetworkStatus ctx /\
  DeviceNetworkStatus (ctx_of r) = [("eth0", [])] /\
  led_signals (trace_of r) = [1].
Proof.
  intros ctx r.
  assert (Hacc : DevicePortConfigPrio ctx = 0 \/
                 priority_of_key "zedagent" <= DevicePortConfigPrio ctx).
  { right. vm_compute. intros H. discriminate H. }
  assert (Hdiff : fst (MakeDeviceNetworkStatus (probing no_addrs)
                         (DevicePortConfig ctx) (DeviceNetworkStatus ctx))
                  <> DeviceNetworkStatus ctx).
  { vm_compute. intros H. discriminate H. }
  split; [exact Hacc|].
  destruct (HandleDPCModify_same_config (probing no_addrs) "zedagent" ctx
              Hacc) as (Hd & Hp & Hprio & _ & _ & Hrun).
  destruct (Hrun Hdiff) as (_ & Hst & _ & _ & _ & Hled & _).
  split; [exact Hd|]. split; [exact Hp|]. split; [exact Hprio|].
  split; [exact Hdiff|]. split; [exact Hst|exact Hled].
Defined.

(** C3 as stated fails: zedagent deletes its configuration while the
    projector would report the loopback interface for the empty
    configuration; the projector is not called and the new status is the
    zero value, not the projection. *)
Lemma HandleDPCDelete_does_not_project :
  let r := HandleDPCDelete with_loopback "zedagent" zedagent_active in
  dpc_delete_ignored zedagent_active "zedagent" = false /\
  projector_calls (trace_of r) = [] /\
  fst (MakeDeviceNetworkStatus with_loopback zero_DevicePortConfig
         (DeviceNetworkStatus zedagent_active))
    = [("lo", ["127.0.0.1"])] /\
  DeviceNetworkStatus (ctx_of r) = [].
Proof. vm_compute. auto. Qed.

(** The amended C3 at the same input. *)
Lemma HandleDPCDelete_owning_witness :
  let ctx := zedagent_active in
  let r := HandleDPCDelete with_loopback "zedagent" ctx in
  priority_of_key "zedagent" = DevicePortConfigPrio ctx /\
  projector_calls (trace_of r) = [] /\
  DevicePortConfigPrio (ctx_of r) = 0 /\
  DevicePortConfig (ctx_of r) = zero_DevicePortConfig /\
  DeviceNetworkStatus (ctx_of r) = zero_DeviceNetworkStatus.
Proof.
  intros ctx r.
  assert (Hown : priority_of_key "zedagent" = DevicePortConfigPrio ctx).
  { vm_compute. reflexivity. }
  split; [exact Hown|].
  destruct (HandleDPCDelete_owning with_loopback "zedagent" ctx Hown)
    as (Hproj & Hprio & _ & Hcfg & Hst & _).
  auto.
Defined.

(** C5 as stated fails: "override" names a port that does not exist; the
    projector returns an error together with the ports it found, and that
    status replaces the previous one, raises signal 1 and is published. *)
Lemma HandleDPCModify_error_overwrites_status :
  let env := failing [("eth0", [])] in
  let ctx := global_active in
  let r := HandleDPCModify env "override" ["eth0"; "eth9"] ctx in
  dpc_modify_ignored ctx "override" = false /\
  snd (MakeDeviceNetworkStatus env ["eth0"; "eth9"] (DeviceNetworkStatus ctx))
    = Some "Port in config/global does not exist" /\
  DeviceNetworkStatus ctx = [("eth0", ["192.168.1.10"])] /\
  DeviceNetworkStatus (ctx_of r) = [("eth0", [])] /\
  led_signals (trace_of r) = [1] /\
  status_publications (trace_of r) = [("global", [("eth0", [])])].
Proof. vm_compute. auto 10. Qed.

(** The amended C5 at the same input. *)
Lemma HandleDPCModify_projection_error_discarded_witness :
  let env := failing [("eth0", [])] in
  let ctx := global_active in
  let r := HandleDPCModify env "override" ["eth0"; "eth9"] ctx in
  (DevicePortConfigPrio ctx = 0 \/
     priority_of_key "override" <= DevicePortConfigPrio ctx) /\
  projector_calls (trace_of r)
    = [(["eth0"; "eth9"], DeviceNetworkStatus ctx)] /\
  DeviceNetworkStatus (ctx_of r)
    = fst (MakeDeviceNetworkStatus env ["eth0"; "eth9"]
             (DeviceNetworkStatus ctx)) /\
  fst (MakeDeviceNetworkStatus env ["eth0"; "eth9"]
         (DeviceNetworkStatus ctx)) <> DeviceNetworkStatus ctx /\
  led_signals (trace_of r) = [1].
Proof.
  intros env ctx r.
  assert (Hacc : DevicePortConfigPrio ctx = 0 \/
                 priority_of_key "override" <= DevicePortConfigPrio ctx).
  { right. vm_compute. intros H. discriminate H. }
  assert (Hdiff : fst (MakeDeviceNetworkStatus env ["eth0"; "eth9"]
                         (DeviceNetworkStatus ctx))
                  <> DeviceNetworkStatus ctx).
  { vm_compute. intros H. discriminate H. }
  split; [exact Hacc|].
  destruct (HandleDPCModify_projection_error_discarded env "override"
              ["eth0"; "eth9"] ctx Hacc) as (Hproj & Hst & _ & Hrun).
  destruct (Hrun Hdiff) as (_ & _ & _ & _ & Hled & _).
  split; [exact Hproj|]. split; [exact Hst|].
  split; [exact Hdiff|exact Hled].
Defined.

(** C8 as stated fails: on a context without [PubDeviceNetworkStatus]
    [DoDNSUpdate] publishes nothing, also when called from
    [HandleDPCModify] after a change of the status. *)
Lemma DoDNSUpdate_nil_publication_silent :
  let r := HandleDPCModify (probing one_addr) "zedagent" ["eth0"]
             not_publishing in
  PubDeviceNetworkStatus not_publishing = None /\
  status_publications (trace_of (DoDNSUpdate (probing one_addr)
                                   not_publishing)) = [] /\
  DeviceNetworkStatus not_publishing = [] /\
  DeviceNetworkStatus (ctx_of r) = [("eth0", ["192.168.1.10"])] /\
  led_signals (trace_of r) = [2] /\
  status_publications (trace_of r) = [].
Proof. vm_compute. auto 10. Qed.

(** ** Further properties on concrete contexts *)

(** X1 on a key of another model. *)
Lemma legacy_handlers_ignore_other_keys_witness :
  "Dell.PowerEdge-R210" <> ManufacturerModel fresh /\
  HandleDNCModify (probing no_addrs) "Dell.PowerEdge-R210" ["eth0"] fresh
    = (tt, fresh, []) /\
  HandleDNCDelete (probing no_addrs) "Dell.PowerEdge-R210" fresh
    = (tt, fresh, []).
Proof.
  assert (Hne : "Dell.PowerEdge-R210" <> ManufacturerModel fresh).
  { vm_compute. intros H. discriminate H. }
  split; [exact Hne|].
  apply (legacy_handlers_ignore_other_keys (probing no_addrs)
           "Dell.PowerEdge-R210" ["eth0"] fresh Hne).
Defined.

(** X2 on the first delivery of the registered model. *)
Lemma HandleDNCModify_publishes_on_change_witness :
  "Supermicro.SYS-E100-9APP" = ManufacturerModel fresh /\
  published_global
    (ctx_of (HandleDNCModify (probing no_addrs) "Supermicro.SYS-E100-9APP"
               ["eth0"] fresh)) = ["eth0"] /\
  port_config_publications
    (trace_of (HandleDNCModify (probing no_addrs) "Supermicro.SYS-E100-9APP"
                 ["eth0"] fresh)) = [("global", ["eth0"])].
Proof.
  assert (Hkey : "Supermicro.SYS-E100-9APP" = ManufacturerModel fresh).
  { vm_compute. reflexivity. }
  split; [exact Hkey|].
  destruct (HandleDNCModify_publishes_on_change (probing no_addrs)
              "Supermicro.SYS-E100-9APP" ["eth0"] fresh Hkey)
    as (Hheld & Hpub & _).
  split; [exact Hheld|exact Hpub].
Defined.

(** X4 after the registered model has delivered once. *)
Lemma HandleDNCDelete_resets_raw_config_witness :
  "Supermicro.SYS-E100-9APP" = ManufacturerModel model_delivered /\
  DeviceNetworkConfig model_delivered = ["eth0"] /\
  DeviceNetworkConfig
    (ctx_of (HandleDNCDelete (probing no_addrs) "Supermicro.SYS-E100-9APP"
               model_delivered)) = [] /\
  port_config_publications
    (trace_of (HandleDNCDelete (probing no_addrs) "Supermicro.SYS-E100-9APP"
                 model_delivered)) = [("global", [])].
Proof.
  assert (Hkey : "Supermicro.SYS-E100-9APP"
                 = ManufacturerModel model_delivered).
  { vm_compute. reflexivity. }
  split; [exact Hkey|]. split; [vm_compute; reflexivity|].
  destruct (HandleDNCDelete_resets_raw_config (probing no_addrs)
              "Supermicro.SYS-E100-9APP" model_delivered Hkey)
    as (_ & Hraw & _ & Hpub).
  split; [exact Hraw|exact Hpub].
Defined.

(** X7 on [mixed_run]. *)
Lemma count_cache_stays_current_witness :
  count_cache_current count_addrs fresh /\
  count_cache_current count_addrs (final fresh mixed_run).
Proof.
  assert (Hcur : count_cache_current count_addrs fresh).
  { vm_compute. reflexivity. }
  split; [exact Hcur|].
  apply (count_cache_stays_current (Ty := sample_types) count_addrs
           mixed_run fresh);
    [|exact Hcur].
  repeat constructor.
Defined.

(** X8 on [mixed_run]. *)
Lemma status_publication_stays_current_witness :
  status_publication_current fresh /\
  status_publication_current (final fresh mixed_run).
Proof.
  assert (Hcur : status_publication_current fresh).
  { vm_compute. exact I. }
  split; [exact Hcur|].
  apply (status_publication_stays_current mixed_run fresh Hcur).
Defined.

(** X9 on a run that leaves the status alone. *)
Lemma Changed_false_means_status_untouched_witness :
  let evs := [Modify (probing one_addr) "global" [];
              Delete (probing one_addr) "override"] in
  Changed (final fresh evs) = false /\
  DeviceNetworkStatus (final fresh evs) = DeviceNetworkStatus fresh /\
  UsableAddressCount (final fresh evs) = UsableAddressCount fresh.
Proof.
  intros evs.
  assert (Hch : Changed (final fresh evs) = false).
  { vm_compute. reflexivity. }
  split; [exact Hch|].
  destruct (Changed_false_means_status_untouched evs fresh Hch)
    as (Hs & Hu & _).
  split; [exact Hs|exact Hu].
Defined.

(** X10 while zedagent owns the configuration. *)
Lemma lower_priority_events_change_nothing_witness :
  let evs := [Modify (probing no_addrs) "global" ["eth1"];
              Delete (probing no_addrs) "override";
              Modify (probing no_addrs) "override" ["eth2"]] in
  DevicePortConfigPrio zedagent_active <> 0 /\
  final zedagent_active evs = zedagent_active.
Proof.
  intros evs.
  assert (Hown : DevicePortConfigPrio zedagent_active <> 0).
  { vm_compute. intros H. discriminate H. }
  split; [exact Hown|].
  apply (lower_priority_events_change_nothing evs zedagent_active Hown).
  repeat constructor.
Defined.

(** X11 from the per-platform configuration. *)
Lemma modify_run_priority_never_rises_witness :
  let ms := [(probing one_addr, "override", ["eth1"]);
             (probing one_addr, "global", ["eth0"]);
             (probing one_addr, "zedagent", ["eth2"])] in
  DevicePortConfigPrio global_active <> 0 /\
  DevicePortConfigPrio (final global_active (map modify_event ms))
    <= DevicePortConfigPrio global_active.
Proof.
  intros ms.
  assert (Hset : DevicePortConfigPrio global_active <> 0).
  { vm_compute. intros H. discriminate H. }
  split; [exact Hset|].
  apply (modify_run_priority_never_rises ms global_active Hset).
Defined.

(** X12 on [mixed_run]. *)
Lemma priority_stays_in_range_witness :
  0 <= DevicePortConfigPrio fresh <= 3 /\
  0 <= DevicePortConfigPrio (final fresh mixed_run) <= 3.
Proof.
  assert (Hrange : 0 <= DevicePortConfigPrio fresh <= 3).
  { vm_compute. split; intros H; discriminate H. }
  split; [exact Hrange|].
  apply (priority_stays_in_range mixed_run fresh Hrange).
Defined.

(** X14: zedagent deletes, then "global" is accepted. *)
Lemma modify_after_owning_delete_accepted_witness :
  priority_of_key "zedagent" = DevicePortConfigPrio zedagent_active /\
  DevicePortConfigPrio
    (ctx_of (HandleDPCModify (probing one_addr) "global" ["eth1"]
               (ctx_of (HandleDPCDelete (probing one_addr) "zedagent"
                          zedagent_active))))
    = priority_of_key "global".
Proof.
  assert (Hown : priority_of_key "zedagent"
                 = DevicePortConfigPrio zedagent_active).
  { vm_compute. reflexivity. }
  split; [exact Hown|].
  destruct (modify_after_owning_delete_accepted (probing one_addr)
              (probing one_addr) "zedagent" "global" ["eth1"]
              zedagent_active Hown) as (_ & _ & Hp).
  exact Hp.
Defined.

(** X15: zedagent delivers the same configuration twice while eth0 keeps
    its address. *)
Lemma HandleDPCModify_idempotent_witness :
  let ctx1 := ctx_of (HandleDPCModify (probing one_addr) "zedagent"
                        ["eth0"] fresh) in
  fst (MakeDeviceNetworkStatus (probing one_addr) ["eth0"]
         (DeviceNetworkStatus ctx1)) = DeviceNetworkStatus ctx1 /\
  ctx_of (HandleDPCModify (probing one_addr) "zedagent" ["eth0"] ctx1)
    = ctx1.
Proof.
  intros ctx1.
  assert (Hstable : fst (MakeDeviceNetworkStatus (probing one_addr) ["eth0"]
                           (DeviceNetworkStatus ctx1))
                    = DeviceNetworkStatus ctx1).
  { vm_compute. reflexivity. }
  split; [exact Hstable|].
  destruct (HandleDPCModify_idempotent (probing one_addr) "zedagent"
              ["eth0"] fresh Hstable) as (Hctx & _).
  exact Hctx.
Defined.
